(** * kaufman-memorial: the comment paginator, the background resolver and
      the dataset validator

    A shallow embedding of [render_pdf.py] and [test_data.py].

    The dataset is what [json.load] returns: a tree of Python values.  It is
    modelled by the type [json]; a Python [dict] is a finite map from keys to
    values, a [list] is a list, a [str] is a string of code points (the model
    has the code points below 256), and a number is its exact rational value.
    Every number the paginator computes is a multiple of 0.5, which binary
    floating point represents exactly, so the rational arithmetic below is
    the arithmetic the interpreter performs on these inputs.

    Python exceptions are explicit: a function that can raise returns a
    [result]. *)

From Stdlib Require Import QArith Lqa Ascii.
From stdpp Require Import gmap strings list fin_maps pretty.

Close Scope Q_scope.
Open Scope string_scope.
Open Scope list_scope.
Open Scope stdpp_scope.
Set Warnings "-register-all".

(** ** Python values *)

Inductive json :=
| JNull
| JBool (b : bool)
| JNum (q : Q)
| JStr (s : string)
| JArr (l : list json)
| JObj (m : gmap string json).

(** ** Exceptions *)

Inductive exn :=
| ValidationError (reason : string)
| TypeError
| KeyError (key : string)
| AttributeError.

Inductive result (A : Type) :=
| Ok (a : A)
| Raise (e : exn).

Arguments Ok {A} a.
Arguments Raise {A} e.

Definition bind {A B} (r : result A) (k : A → result B) : result B :=
  match r with
  | Ok a => k a
  | Raise e => Raise e
  end.

Notation "'let*' x ':=' r 'in' k" := (bind r (fun x => k))
  (at level 10, x name, r at level 100, k at level 200).

(** ** The operations of the interpreter the two programs use *)

Module Py.

(** [len(x)] *)
Definition len (x : json) : result nat :=
  match x with
  | JStr s => Ok (String.length s)
  | JArr l => Ok (length l)
  | JObj m => Ok (size m)
  | _ => Raise TypeError
  end.

(** [x.get(key, dflt)]: only a dict has the method. *)
Definition get (x : json) (key : string) (dflt : json) : result json :=
  match x with
  | JObj m => Ok (default dflt (m !! key))
  | _ => Raise AttributeError
  end.

(** [x[key]] for a string [key]. *)
Definition getitem (x : json) (key : string) : result json :=
  match x with
  | JObj m =>
      match m !! key with
      | Some v => Ok v
      | None => Raise (KeyError key)
      end
  | _ => Raise TypeError
  end.

Definition is_str (x : json) : bool :=
  match x with JStr _ => true | _ => false end.

Definition is_dict (x : json) : bool :=
  match x with JObj _ => true | _ => false end.

Definition is_list (x : json) : bool :=
  match x with JArr _ => true | _ => false end.

(** [x == s] for a string [s] *)
Definition eq_str (s : string) (x : json) : bool :=
  match x with JStr t => String.eqb s t | _ => false end.

(** [sub in s] on two strings: [sub] occurs in [s]. *)
Fixpoint occurs (sub s : string) : bool :=
  String.prefix sub s ||
  match s with
  | EmptyString => false
  | String _ s' => occurs sub s'
  end.

(** [key in x] for a string [key] *)
Definition contains (key : string) (x : json) : result bool :=
  match x with
  | JObj m => Ok (bool_decide (is_Some (m !! key)))
  | JArr l => Ok (existsb (eq_str key) l)
  | JStr s => Ok (occurs key s)
  | _ => Raise TypeError
  end.

(** The truth value of [x] in a condition. *)
Definition truthy (x : json) : bool :=
  match x with
  | JNull => false
  | JBool b => b
  | JNum q => negb (Qeq_bool q 0)
  | JStr s => negb (String.eqb s "")
  | JArr l => negb (bool_decide (l = []))
  | JObj m => negb (bool_decide (size m = 0))
  end.

(** [for c in x]: the elements the loop visits.  A dict yields its keys;
    the finite map does not record insertion order, they come in the
    order of the map. *)
Definition iter (x : json) : result (list json) :=
  match x with
  | JArr l => Ok l
  | JStr s => Ok ((λ c, JStr (String c EmptyString)) <$> String.list_ascii_of_string s)
  | JObj m => Ok (JStr <$> (map_to_list m).*1)
  | _ => Raise TypeError
  end.

End Py.

(** ** render_pdf.py: [paginate_comments] *)

(** [msg_len if msg_len > 120 else msg_len * 0.5] *)
Definition effective_len (msg_len : nat) : Q :=
  if bool_decide (120 < msg_len) then inject_Z (Z.of_nat msg_len)
  else (inject_Z (Z.of_nat msg_len) * (1 # 2))%Q.

(** The first three lines of the loop body: the weight of comment [c]. *)
Definition comment_weight (c : json) : result Q :=
  let* msg := Py.get c "message" (JStr "") in
  let* msg_len := Py.len msg in
  Ok (effective_len msg_len).

(** The variables of the loop. *)
Record pstate := PState {
  pages : list (list json);
  current_page : list json;
  current_len : Q
}.

(** [current_len + effective_len > max_chars] *)
Definition overflows (max_chars : Q) (st : pstate) (eff : Q) : bool :=
  negb (Qle_bool (current_len st + eff) max_chars).

(** [len(current_page) >= max_per_page] *)
Definition page_full (max_per_page : Z) (st : pstate) : bool :=
  bool_decide (max_per_page ≤ Z.of_nat (length (current_page st)))%Z.

(** [if current_page and (... or ...)]: start a new page. *)
Definition breaks (max_chars : Q) (max_per_page : Z) (st : pstate) (eff : Q) : bool :=
  negb (bool_decide (current_page st = [])) &&
  (overflows max_chars st eff || page_full max_per_page st).

Definition close_page (st : pstate) : pstate :=
  {| pages := pages st ++ [current_page st]; current_page := []; current_len := 0 |}.

Definition add_comment (c : json) (eff : Q) (st : pstate) : pstate :=
  {| pages := pages st;
     current_page := current_page st ++ [c];
     current_len := (current_len st + eff)%Q |}.

(** One iteration of [for c in comments]. *)
Definition paginate_step (max_chars : Q) (max_per_page : Z)
    (st : pstate) (c : json) : result pstate :=
  let* eff := comment_weight c in
  let st' := if breaks max_chars max_per_page st eff then close_page st else st in
  Ok (add_comment c eff st').

Fixpoint paginate_loop (max_chars : Q) (max_per_page : Z)
    (comments : list json) (st : pstate) : result pstate :=
  match comments with
  | [] => Ok st
  | c :: rest =>
      let* st' := paginate_step max_chars max_per_page st c in
      paginate_loop max_chars max_per_page rest st'
  end.

Definition paginate_comments (comments : list json) (max_chars : Q)
    (max_per_page : Z) : result (list (list json)) :=
  let* st := paginate_loop max_chars max_per_page comments
               {| pages := []; current_page := []; current_len := 0 |} in
  Ok (if bool_decide (current_page st = []) then pages st
      else pages st ++ [current_page st]).

(** A comment the paginator can measure: a dict whose [message], when it has
    one, has a length. *)
Definition measurable (c : json) : bool :=
  match comment_weight c with
  | Ok _ => true
  | Raise _ => false
  end.

(** The weight of a comment and of a page, for stating the guarantees. *)
Definition weight (c : json) : Q :=
  match comment_weight c with
  | Ok w => w
  | Raise _ => 0
  end.

Definition page_weight (page : list json) : Q :=
  foldr (λ c acc, (weight c + acc)%Q) 0%Q page.

Definition comment (fields : list (string * json)) : json :=
  JObj (list_to_map fields).

(** ** render_pdf.py: [parse_background] *)

(** The entries of the dict a call returns. *)
Definition parse_background (bg_config default_size default_position : json)
    : gmap string json :=
  match bg_config with
  | JStr _ =>
      {[ "image" := bg_config;
         "size" := default_size;
         "position" := default_position ]}
  | JObj m =>
      {[ "image" := default (JStr "") (m !! "image");
         "size" := default default_size (m !! "size");
         "position" := default default_position (m !! "position") ]}
  | _ =>
      {[ "image" := JStr "";
         "size" := default_size;
         "position" := default_position ]}
  end.

(** The defaults of the signature. *)
Definition default_size : json := JStr "cover".
Definition default_position : json := JStr "center".

(** ** render_pdf.py: the backgrounds of the render context *)

(** Every call of [parse_background] builds a new dict.  The dicts the render
    pass creates live in a store; a dict is known by its index there, and
    two names for one index are two names for one dict. *)
Abbreviation heap := (list (gmap string json)).

(** A dict display [{...}]: a new object. *)
Definition new_dict (d : gmap string json) (h : heap) : nat * heap :=
  (length h, h ++ [d]).

(** [d[key] = v] on the dict at [l]. *)
Definition setitem (l : nat) (key : string) (v : json) (h : heap) : heap :=
  alter (λ d, <[key := v]> d) l h.

(** [[parse_background(bg) for bg in pages_list_raw]] *)
Fixpoint parse_all (raws : list json) (h : heap) : list nat * heap :=
  match raws with
  | [] => ([], h)
  | bg :: rest =>
      let '(l, h1) := new_dict (parse_background bg default_size default_position) h in
      let '(ls, h2) := parse_all rest h1 in
      (l :: ls, h2)
  end.

Record backgrounds_context := BackgroundsContext {
  background_cover : nat;
  background_pages : nat;
  background_pages_list : list nat
}.

(** The lines of [render_pdf] from [backgrounds = data.get(...)] to
    [background_pages_list = ...]. *)
Definition render_backgrounds (data : json) (h : heap)
    : result (backgrounds_context * heap) :=
  let* backgrounds := Py.get data "backgrounds" (JObj ∅) in
  let* legacy := Py.get data "background_image" JNull in
  let* cover_raw := Py.get backgrounds "cover" legacy in
  let '(cover, h1) :=
    new_dict (parse_background cover_raw default_size default_position) h in
  let* cover_again := Py.get backgrounds "cover" JNull in
  let* pages_raw := Py.get backgrounds "pages" cover_again in
  let '(pgs, h2) :=
    new_dict (parse_background pages_raw default_size default_position) h1 in
  let* pages_list_raw := Py.get backgrounds "pages_list" (JArr []) in
  let* raws := Py.iter pages_list_raw in
  let '(lst, h3) := parse_all raws h2 in
  Ok ({| background_cover := cover;
         background_pages := pgs;
         background_pages_list := lst |}, h3).

(** The raw entry each scope resolves, in the words of the configuration:
    [cover] is the configured cover or else the top-level
    [background_image]; [pages] is the configured pages or else the raw
    cover. *)
Definition raw_cover (data backgrounds : gmap string json) : json :=
  match backgrounds !! "cover" with
  | Some raw => raw
  | None => default JNull (data !! "background_image")
  end.

Definition raw_pages (backgrounds : gmap string json) : json :=
  match backgrounds !! "pages" with
  | Some raw => raw
  | None => default JNull (backgrounds !! "cover")
  end.

(** The [backgrounds] mapping of a dataset: the configured one, or the empty
    mapping when the key is absent. *)
Definition backgrounds_of (data : gmap string json) : option (gmap string json) :=
  match data !! "backgrounds" with
  | None => Some ∅
  | Some (JObj b) => Some b
  | Some _ => None
  end.

(** [pages_list] is a sequence whenever it is configured. *)
Definition pages_list_ok (backgrounds : gmap string json) : bool :=
  match Py.iter (default (JArr []) (backgrounds !! "pages_list")) with
  | Ok _ => true
  | Raise _ => false
  end.

(** *** The resolver in the words of the specification

    A raw entry is a plain string, a structured object of which each of the
    three fields may be absent, or neither of the two. *)
Inductive raw_entry :=
| StringForm (s : string)
| ObjectForm (image size position : option json)
| Absent.

Record background_spec := BackgroundSpec {
  spec_image : json;
  spec_size : json;
  spec_position : json
}.

Definition resolve_spec (raw : raw_entry) (default_size default_position : json)
    : background_spec :=
  match raw with
  | StringForm s =>
      {| spec_image := JStr s;
         spec_size := default_size;
         spec_position := default_position |}
  | ObjectForm image size position =>
      {| spec_image := match image with Some v => v | None => JStr "" end;
         spec_size := match size with Some v => v | None => default_size end;
         spec_position :=
           match position with Some v => v | None => default_position end |}
  | Absent =>
      {| spec_image := JStr "";
         spec_size := default_size;
         spec_position := default_position |}
  end.

(** The shape of a value of the dataset as a raw entry. *)
Definition shape (bg : json) : raw_entry :=
  match bg with
  | JStr s => StringForm s
  | JObj m => ObjectForm (m !! "image") (m !! "size") (m !! "position")
  | _ => Absent
  end.

(** ** test_data.py: strings and patterns *)

(** The white space of [str.strip()] and of [\s], among the code points
    below 256. *)
Definition is_space (c : ascii) : bool :=
  let n := nat_of_ascii c in
  (Nat.leb 9 n && Nat.leb n 13) || (Nat.leb 28 n && Nat.leb n 32)
  || Nat.eqb n 133 || Nat.eqb n 160.

(** The decimal digits of [\d], among the code points below 256. *)
Definition is_digit (c : ascii) : bool :=
  let n := nat_of_ascii c in Nat.leb 48 n && Nat.leb n 57.

(** [isinstance(x, str) and x.strip()]: a string that is not blank. *)
Definition nonblank_str (x : json) : bool :=
  match x with
  | JStr s => negb (forallb is_space (String.list_ascii_of_string s))
  | _ => false
  end.

(** [f"{x}"] for a string [x]; the validator formats no other value. *)
Definition format (x : json) : string :=
  match x with JStr s => s | _ => "" end.

(** The patterns of the validator are sequences of character classes, each
    taken once or one or more times, between [^] and [$]. *)
Module Re.

Inductive atom :=
| One (cls : ascii → bool)
| Many (cls : ascii → bool).

(** [$]: the end of the string, or just before a newline that ends it. *)
Definition at_end (s : list ascii) : bool :=
  match s with
  | [] => true
  | [c] => Ascii.eqb c "010"%char
  | _ => false
  end.

(** Matching from the start of the string, with backtracking. *)
Fixpoint run (p : list atom) : list ascii → bool :=
  match p with
  | [] => at_end
  | One cls :: rest =>
      λ s, match s with
           | c :: s' => cls c && run rest s'
           | [] => false
           end
  | Many cls :: rest =>
      fix many (s : list ascii) : bool :=
        match s with
        | c :: s' => cls c && (many s' || run rest s')
        | [] => false
        end
  end.

Definition lit (a : ascii) : ascii → bool := Ascii.eqb a.

(** [pattern.match(x)]: a match object or [None], as a truth value. *)
Definition matches (p : list atom) (x : json) : result bool :=
  match x with
  | JStr s => Ok (run p (String.list_ascii_of_string s))
  | _ => Raise TypeError
  end.

End Re.

(** [re.compile(r'^\d+%\s+\d+%$')] *)
Definition percentage_pattern : list Re.atom :=
  [Re.Many is_digit; Re.One (Re.lit "%"); Re.Many is_space;
   Re.Many is_digit; Re.One (Re.lit "%")].

(** [re.compile(r'^\d+px$')] *)
Definition height_pattern : list Re.atom :=
  [Re.Many is_digit; Re.One (Re.lit "p"); Re.One (Re.lit "x")].

(** ** test_data.py: the validator *)

(** What the validator prints on its way. *)
Inductive event :=
| PersonValid                             (* Person object is valid *)
| BackgroundsValid                        (* Backgrounds configuration is valid *)
| DuplicateAuthors (dups : list string)   (* Warning: Duplicate authors found: ... *)
| CommentsValid (n : nat).                (* All n comments are valid *)

(** A run: the lines printed, and how it ended. *)
Definition outcome (A : Type) : Type := list event * result A.

Definition and_then {A B} (r : outcome A) (k : A → outcome B) : outcome B :=
  match r with
  | (o, Ok a) => let '(o', r') := k a in (o ++ o', r')
  | (o, Raise e) => (o, Raise e)
  end.

(** The checks of a function, then the line it prints when they pass. *)
Definition report {A} (checks : result A) (line : A → list event) : outcome unit :=
  match checks with
  | Ok a => (line a, Ok ())
  | Raise e => ([], Raise e)
  end.

Definition fail {A} (reason : string) : result A :=
  Raise (ValidationError reason).

Section Validator.

(** The file system: whether [ROOT / filepath] exists. *)
Variable file_exists : string → bool.

Definition validate_file_exists (filepath : json) (description : string)
    : result unit :=
  match filepath with
  | JStr p =>
      if file_exists p then Ok ()
      else fail (description +:+ " not found: " +:+ p)
  | _ => Raise TypeError
  end.

(** *** [validate_person] *)

Definition required_person_fields : list string :=
  ["name"; "subtitle"; "profile_image"; "header_note"; "date_range"].

Fixpoint person_fields (person : json) (fields : list string) : result unit :=
  match fields with
  | [] => Ok ()
  | field :: rest =>
      let* present := Py.contains field person in
      if negb present then
        fail ("Missing required field in person: '" +:+ field +:+ "'")
      else
        let* v := Py.getitem person field in
        if negb (nonblank_str v) then
          fail ("Field 'person." +:+ field +:+ "' must be a non-empty string")
        else person_fields person rest
  end.

Definition person_checks (data : json) : result unit :=
  let* present := Py.contains "person" data in
  if negb present then fail "Missing required top-level key: 'person'"
  else
    let* person := Py.getitem data "person" in
    let* _ := person_fields person required_person_fields in
    let* img := Py.getitem person "profile_image" in
    validate_file_exists img "Person profile image".

Definition validate_person (data : json) : outcome unit :=
  report (person_checks data) (λ _, [PersonValid]).

(** *** [validate_background_object] *)

Fixpoint background_fields (bg : json) (path : string) (fields : list string)
    : result unit :=
  match fields with
  | [] => Ok ()
  | field :: rest =>
      let* present := Py.contains field bg in
      if negb present then
        fail ("Missing required field in " +:+ path +:+ ": '" +:+ field +:+ "'")
      else background_fields bg path rest
  end.

Definition valid_sizes : list string := ["cover"; "contain"; "auto"].

Definition validate_background_object (bg : json) (path : string) : result unit :=
  if negb (Py.is_dict bg) then fail (path +:+ " must be an object")
  else
    let* _ := background_fields bg path ["image"; "size"; "position"] in
    let* image := Py.getitem bg "image" in
    let* _ := validate_file_exists image (path +:+ " image") in
    let* size := Py.getitem bg "size" in
    let* bad_size :=
      if negb (existsb (λ s, Py.eq_str s size) valid_sizes) then
        let* m := Re.matches percentage_pattern size in Ok (negb m)
      else Ok false in
    if bad_size then
      fail (path +:+ ".size must be 'cover', 'contain', 'auto', or 'XX% XX%' format. Got: '"
            +:+ format size +:+ "'")
    else
      let* position := Py.getitem bg "position" in
      if negb (nonblank_str position) then
        fail (path +:+ ".position must be a non-empty string")
      else Ok ().

(** *** [validate_backgrounds] *)

Fixpoint pages_list_checks (i : nat) (bgs : list json) : result unit :=
  match bgs with
  | [] => Ok ()
  | bg :: rest =>
      let* _ := validate_background_object bg
                  ("backgrounds.pages_list[" +:+ pretty i +:+ "]") in
      pages_list_checks (S i) rest
  end.

Definition backgrounds_checks (data : json) : result unit :=
  let* present := Py.contains "backgrounds" data in
  if negb present then fail "Missing required top-level key: 'backgrounds'"
  else
    let* backgrounds := Py.getitem data "backgrounds" in
    let* has_cover := Py.contains "cover" backgrounds in
    if negb has_cover then fail "Missing required field: backgrounds.cover"
    else
      let* cover := Py.getitem backgrounds "cover" in
      let* _ := validate_background_object cover "backgrounds.cover" in
      let* has_pages := Py.contains "pages" backgrounds in
      let* _ :=
        if has_pages then
          let* pgs := Py.getitem backgrounds "pages" in
          validate_background_object pgs "backgrounds.pages"
        else Ok () in
      let* has_list := Py.contains "pages_list" backgrounds in
      if has_list then
        let* pages_list := Py.getitem backgrounds "pages_list" in
        match pages_list with
        | JArr bgs => pages_list_checks 0 bgs
        | _ => fail "backgrounds.pages_list must be an array"
        end
      else Ok ().

Definition validate_backgrounds (data : json) : outcome unit :=
  report (backgrounds_checks data) (λ _, [BackgroundsValid]).

(** *** [validate_comments] *)

(** The checks of the loop body before the height: the required fields, the
    author, the message and the optional profile image.  They give the
    author the loop appends to [authors]. *)
Definition comment_fields (i : nat) (comment : json) : result string :=
  let* has_author := Py.contains "author" comment in
  if negb has_author then fail ("Missing 'author' in comments[" +:+ pretty i +:+ "]")
  else
    let* has_message := Py.contains "message" comment in
    if negb has_message then
      fail ("Missing 'message' in comments[" +:+ pretty i +:+ "]")
    else
      let* author := Py.getitem comment "author" in
      if negb (nonblank_str author) then
        fail ("comments[" +:+ pretty i +:+ "].author must be a non-empty string")
      else
        let* message := Py.getitem comment "message" in
        if negb (nonblank_str message) then
          fail ("comments[" +:+ pretty i +:+ "].message must be a non-empty string")
        else
          let* has_image := Py.contains "profile_image" comment in
          let* _ :=
            if has_image then
              let* profile_img := Py.getitem comment "profile_image" in
              if Py.truthy profile_img then
                match validate_file_exists profile_img
                        ("comments[" +:+ pretty i +:+ "].profile_image") with
                | Raise (ValidationError e) =>
                    fail ("Invalid profile_image for " +:+ format author
                          +:+ ": " +:+ e)
                | r => r
                end
              else Ok ()
            else Ok () in
          Ok (format author).

(** The last check of the loop body: the optional height. *)
Definition comment_height (i : nat) (comment : json) : result unit :=
  let* has_height := Py.contains "height" comment in
  if has_height then
    let* height := Py.getitem comment "height" in
    let* m := Re.matches height_pattern height in
    if negb m then
      fail ("comments[" +:+ pretty i +:+ "].height must be in format 'XXXpx'. Got: '"
            +:+ format height +:+ "'")
    else Ok ()
  else Ok ().

(** One iteration of [for i, comment in enumerate(comments)]. *)
Definition check_comment (i : nat) (comment : json) : result string :=
  let* author := comment_fields i comment in
  let* _ := comment_height i comment in
  Ok author.

Fixpoint check_comments (i : nat) (comments : list json) (authors : list string)
    : result (list string) :=
  match comments with
  | [] => Ok authors
  | comment :: rest =>
      let* author := check_comment i comment in
      check_comments (S i) rest (authors ++ [author])
  end.

(** The function up to the end of the loop: the comments and their authors. *)
Definition comments_checks (data : json) : result (list json * list string) :=
  let* present := Py.contains "comments" data in
  if negb present then fail "Missing required top-level key: 'comments'"
  else
    let* comments := Py.getitem data "comments" in
    match comments with
    | JArr l =>
        if bool_decide (length l = 0) then fail "'comments' array is empty"
        else
          let* authors := check_comments 0 l [] in
          Ok (l, authors)
    | _ => fail "'comments' must be an array"
    end.

(** [authors.count(author)] *)
Definition count (author : string) (authors : list string) : nat :=
  length (filter (λ a, a = author) authors).

(** [[author for author in set(authors) if authors.count(author) > 1]].  The
    set is visited in the order of first occurrence; the interpreter fixes
    no order, and nothing below depends on it. *)
Definition duplicates (authors : list string) : list string :=
  filter (λ author, 1 < count author authors) (remove_dups authors).

Definition validate_comments (data : json) : outcome unit :=
  report (comments_checks data)
    (λ '(comments, authors),
       (if bool_decide (duplicates authors = []) then []
        else [DuplicateAuthors (duplicates authors)])
       ++ [CommentsValid (length comments)]).

(** *** The three validations of [main], in order *)

Definition validate (data : json) : outcome unit :=
  and_then (validate_person data) (λ _,
  and_then (validate_backgrounds data) (λ _,
  validate_comments data)).

(** The exit status of [main] on a loaded dataset: both handlers return 1. *)
Definition exit_status (data : json) : Z :=
  match validate data with
  | (_, Ok _) => 0
  | (_, Raise _) => 1
  end.

End Validator.

(** ** Example data *)

(** A message of [n] characters. *)
Definition text (n : nat) : string :=
  String.string_of_list_ascii (replicate n "a"%char).

Definition tribute (author : string) (n : nat) : json :=
  comment [("author", JStr author); ("message", JStr (text n))].

Definition sample_comments : list json :=
  [tribute "Ann" 50; tribute "Bob" 3000; tribute "Cy" 120; tribute "Ann" 50].

Definition sample_person : json :=
  comment [("name", JStr "Bryan"); ("subtitle", JStr "In memory");
           ("profile_image", JStr "bryan.jpg"); ("header_note", JStr "Memories");
           ("date_range", JStr "1950 - 2020")].

Definition sample_cover : json :=
  comment [("image", JStr "cover.jpg"); ("size", JStr "50% 50%");
           ("position", JStr "center")].

Definition sample_dataset (comments : list json) : gmap string json :=
  list_to_map [("person", sample_person);
               ("backgrounds", comment [("cover", sample_cover)]);
               ("comments", JArr comments)].

Definition height_fields (height : json) : gmap string json :=
  list_to_map [("author", JStr "Dee"); ("message", JStr "Rest well");
               ("height", height)].

Definition with_height (height : json) : json :=
  JObj (height_fields height).

Definition all_files : string → bool := λ _, true.

(** ** render_pdf.py: [render_pdf] up to the call of the template

    The function loads the dataset, paginates the comments, prints the
    pages, resolves the backgrounds and hands the context to the template.
    Loading the dataset, loading the template and writing the files are
    outside the model: the dataset is an argument, and the context is the
    result. *)

(** What [render_pdf] prints on its way. *)
Inductive render_line :=
| Generated (n : nat)                              (* Generated n pages: *)
| PageLine (i : nat) (n : nat) (authors : string). (* Page i: n comments - authors *)

(** [sep.join(xs)]: every element must be a string. *)
Fixpoint join (sep : string) (xs : list json) : result string :=
  match xs with
  | [] => Ok ""
  | x :: rest =>
      match x with
      | JStr s =>
          match rest with
          | [] => Ok s
          | _ => let* t := join sep rest in Ok (s +:+ sep +:+ t)
          end
      | _ => Raise TypeError
      end
  end.

(** [[c["author"] for c in page]] *)
Fixpoint page_authors (page : list json) : result (list json) :=
  match page with
  | [] => Ok []
  | c :: rest =>
      let* author := Py.getitem c "author" in
      let* others := page_authors rest in
      Ok (author :: others)
  end.

(** [for i, page in enumerate(pages, 1)]: one line a page. *)
Fixpoint page_lines (i : nat) (pgs : list (list json))
    : list render_line * result unit :=
  match pgs with
  | [] => ([], Ok ())
  | page :: rest =>
      match (let* authors := page_authors page in join ", " authors) with
      | Ok line =>
          let '(out, r) := page_lines (S i) rest in
          (PageLine i (length page) line :: out, r)
      | Raise e => ([], Raise e)
      end
  end.

(** The context of [template.render]. *)
Record render_context := RenderContext {
  ctx_person : json;
  ctx_background_image : json;
  ctx_backgrounds : backgrounds_context;
  ctx_pages : list (list json)
}.

Definition render_pdf (data : json) (h : heap)
    : list render_line * result (render_context * heap) :=
  match (let* comments := Py.getitem data "comments" in
         let* cs := Py.iter comments in
         paginate_comments cs 2400 2) with
  | Raise e => ([], Raise e)
  | Ok pgs =>
      let '(out, r) := page_lines 1 pgs in
      (Generated (length pgs) :: out,
       let* _ := r in
       let* resolved := render_backgrounds data h in
       let* person := Py.getitem data "person" in
       let* background_image := Py.get data "background_image" JNull in
       Ok ({| ctx_person := person;
              ctx_background_image := background_image;
              ctx_backgrounds := resolved.1;
              ctx_pages := pgs |}, resolved.2))
  end.

(** ** The paginator: the loop and its invariants *)

Section Paginate.

Variable max_chars : Q.
Variable max_per_page : Z.

(** The state after one iteration, once the weight of [c] is known. *)
Definition stepped (st : pstate) (c : json) (w : Q) : pstate :=
  add_comment c w
    (if breaks max_chars max_per_page st w then close_page st else st).

Lemma paginate_step_weight st c w :
  comment_weight c = Ok w →
  paginate_step max_chars max_per_page st c = Ok (stepped st c w).
Proof. intros Hw. unfold paginate_step. rewrite Hw. reflexivity. Qed.

Lemma measurable_weight c : measurable c = true → ∃ w, comment_weight c = Ok w.
Proof. unfold measurable. destruct (comment_weight c); [eauto | discriminate]. Qed.

(** The loop rule: a property of the processed prefix and the state that
    one iteration keeps holds when the loop ends, and the loop does end
    normally on measurable comments. *)
Lemma paginate_loop_rule (P : list json → pstate → Prop) :
  (∀ pre st c w, P pre st → comment_weight c = Ok w →
                 P (pre ++ [c]) (stepped st c w)) →
  ∀ cs pre st, forallb measurable cs = true → P pre st →
    ∃ st', paginate_loop max_chars max_per_page cs st = Ok st'
           ∧ P (pre ++ cs) st'.
Proof.
  intros Hstep cs. induction cs as [|c cs IH]; intros pre st Hcs HP.
  - exists st. rewrite app_nil_r. split; [reflexivity | assumption].
  - cbn [forallb] in Hcs. apply andb_prop in Hcs as [Hc Hcs].
    apply measurable_weight in Hc as [w Hw].
    destruct (IH (pre ++ [c]) (stepped st c w) Hcs (Hstep _ _ _ _ HP Hw))
      as (st' & Hrun & HP').
    exists st'. split.
    + cbn [paginate_loop]. rewrite (paginate_step_weight _ _ _ Hw). exact Hrun.
    + rewrite <- app_assoc in HP'. exact HP'.
Qed.

(** *** Nothing is lost or reordered *)

Definition flat (st : pstate) : list json :=
  concat (pages st) ++ current_page st.

Lemma flat_stepped st c w : flat (stepped st c w) = flat st ++ [c].
Proof.
  unfold stepped, flat.
  destruct (breaks max_chars max_per_page st w); cbn.
  - rewrite concat_app. cbn. rewrite app_nil_r. reflexivity.
  - rewrite app_assoc. reflexivity.
Qed.

(** *** Weights *)

Lemma effective_len_nonneg n : (0 <= effective_len n)%Q.
Proof.
  assert (0 <= inject_Z (Z.of_nat n))%Q as H.
  { change 0%Q with (inject_Z 0). rewrite <- Zle_Qle. lia. }
  unfold effective_len. case_bool_decide; lra.
Qed.

Lemma weight_nonneg c : (0 <= weight c)%Q.
Proof.
  unfold weight, comment_weight.
  destruct (Py.get c "message" (JStr "")) as [msg|]; cbn; [|lra].
  destruct (Py.len msg) as [n|]; cbn; [|lra].
  apply effective_len_nonneg.
Qed.

Lemma weight_of c w : comment_weight c = Ok w → weight c = w.
Proof. intros H. unfold weight. rewrite H. reflexivity. Qed.

Lemma page_weight_nil : page_weight [] = 0%Q.
Proof. reflexivity. Qed.

Lemma page_weight_cons c p : page_weight (c :: p) = (weight c + page_weight p)%Q.
Proof. reflexivity. Qed.

Lemma page_weight_nonneg p : (0 <= page_weight p)%Q.
Proof.
  induction p as [|c p IH].
  - rewrite page_weight_nil. lra.
  - rewrite page_weight_cons. pose proof (weight_nonneg c). lra.
Qed.

Lemma page_weight_snoc p c : (page_weight (p ++ [c]) == page_weight p + weight c)%Q.
Proof.
  induction p as [|d p IH].
  - change (weight c + 0 == 0 + weight c)%Q. lra.
  - change ((d :: p) ++ [c]) with (d :: (p ++ [c])).
    rewrite !page_weight_cons, IH. lra.
Qed.

Lemma page_weight_elem p c : c ∈ p → (weight c <= page_weight p)%Q.
Proof.
  induction 1 as [c p | c d p _ IH]; rewrite page_weight_cons.
  - pose proof (page_weight_nonneg p). lra.
  - pose proof (weight_nonneg d). lra.
Qed.

(** A page respects the budget, or it is one oversized comment. *)
Definition page_ok (p : list json) : Prop :=
  (page_weight p <= max_chars)%Q ∨ ∃ c, p = [c] ∧ (max_chars < weight c)%Q.

Definition weight_inv (st : pstate) : Prop :=
  (current_len st == page_weight (current_page st))%Q
  ∧ Forall page_ok (pages st)
  ∧ (current_page st = [] ∨ page_ok (current_page st)).

Lemma page_ok_single c : page_ok [c].
Proof.
  destruct (Qlt_le_dec max_chars (weight c)) as [Hlt|Hle].
  - right. eauto.
  - left. cbn. lra.
Qed.

Lemma weight_inv_stepped st c w :
  weight_inv st → comment_weight c = Ok w → weight_inv (stepped st c w).
Proof.
  intros (Hlen & Hpages & Hcur) Hw. apply weight_of in Hw. subst w.
  unfold stepped, breaks, overflows.
  case_bool_decide as Hnil; cbn [negb andb].
  - (* the current page is empty *)
    rewrite Hnil in *. cbn in Hlen. repeat split; cbn.
    + rewrite Hnil. cbn. lra.
    + exact Hpages.
    + rewrite Hnil. right. apply page_ok_single.
  - destruct Hcur as [?|Hcur]; [contradiction|].
    destruct (Qle_bool (current_len st + weight c) max_chars) eqn:Hfit;
      cbn [negb orb].
    + apply Qle_bool_iff in Hfit.
      destruct (page_full max_per_page st); repeat split; cbn.
      * lra.
      * apply Forall_app. split; [exact Hpages | by constructor].
      * right. apply page_ok_single.
      * rewrite page_weight_snoc. lra.
      * exact Hpages.
      * right. left. rewrite page_weight_snoc. lra.
    + repeat split; cbn.
      * lra.
      * apply Forall_app. split; [exact Hpages | by constructor].
      * right. apply page_ok_single.
Qed.

(** *** Page sizes *)

Definition size_ok (p : list json) : Prop :=
  (1 ≤ Z.of_nat (length p) ≤ Z.max 1 max_per_page)%Z.

Definition size_inv (st : pstate) : Prop :=
  Forall size_ok (pages st)
  ∧ (current_page st = [] ∨ size_ok (current_page st)).

Lemma size_inv_stepped st c w : size_inv st → size_inv (stepped st c w).
Proof.
  intros (Hpages & Hcur).
  assert (size_ok [c]) as Hone by (unfold size_ok; cbn; lia).
  unfold stepped, breaks, page_full.
  case_bool_decide as Hnil; cbn [negb andb].
  - rewrite Hnil in *. split; cbn; [exact Hpages|]. rewrite Hnil. by right.
  - destruct Hcur as [?|Hcur]; [contradiction|].
    destruct (overflows max_chars st w); cbn [orb].
    + split; cbn; [|by right].
      apply Forall_app. split; [exact Hpages | by constructor].
    + case_bool_decide as Hfull; split; cbn.
      * apply Forall_app. split; [exact Hpages | by constructor].
      * by right.
      * exact Hpages.
      * right. unfold size_ok in *. rewrite length_app. cbn. lia.
Qed.

(** *** The whole function *)

Definition init : pstate :=
  {| pages := []; current_page := []; current_len := 0 |}.

Definition finish (st : pstate) : list (list json) :=
  if bool_decide (current_page st = []) then pages st
  else pages st ++ [current_page st].

Lemma concat_finish st : concat (finish st) = flat st.
Proof.
  unfold finish, flat. case_bool_decide as Hnil.
  - rewrite Hnil, app_nil_r. reflexivity.
  - rewrite concat_app. cbn. rewrite app_nil_r. reflexivity.
Qed.

Lemma Forall_finish (P : list json → Prop) st :
  Forall P (pages st) → (current_page st = [] ∨ P (current_page st)) →
  Forall P (finish st).
Proof.
  intros Hpages Hcur. unfold finish. case_bool_decide as Hnil; [exact Hpages|].
  destruct Hcur as [?|Hcur]; [contradiction|].
  apply Forall_app. split; [exact Hpages | by constructor].
Qed.

Lemma paginate_comments_spec cs :
  forallb measurable cs = true →
  ∃ pgs, paginate_comments cs max_chars max_per_page = Ok pgs
         ∧ concat pgs = cs
         ∧ Forall page_ok pgs
         ∧ Forall size_ok pgs.
Proof.
  intros Hcs.
  destruct (paginate_loop_rule
              (λ pre st, flat st = pre ∧ weight_inv st ∧ size_inv st))
    with (cs := cs) (pre := @nil json) (st := init)
    as (st & Hrun & Hflat & (Hlen & Hw & Hwc) & (Hs & Hsc)).
  - intros pre st c w (Hflat & Hw & Hs) Hc. split; [|split].
    + rewrite flat_stepped, Hflat. reflexivity.
    + by apply weight_inv_stepped.
    + by apply size_inv_stepped.
  - exact Hcs.
  - split; [reflexivity|]. split.
    + split; [reflexivity|]. split; [constructor | by left].
    + split; [constructor | by left].
  - exists (finish st). split; [|split; [|split]].
    + unfold paginate_comments. fold init. rewrite Hrun. reflexivity.
    + rewrite concat_finish. exact Hflat.
    + by apply Forall_finish.
    + by apply Forall_finish.
Qed.

End Paginate.

(** Membership in the concatenation of the pages. *)
Lemma elem_of_concat (c : json) (pgs : list (list json)) :
  c ∈ concat pgs ↔ ∃ p, p ∈ pgs ∧ c ∈ p.
Proof.
  rewrite list_elem_of_In, in_concat.
  split; intros (p & Hp & Hc); exists p.
  - by rewrite !list_elem_of_In.
  - by rewrite <- !list_elem_of_In.
Qed.

(** ** The patterns *)

Lemma run_many_cons cls rest c s :
  Re.run (Re.Many cls :: rest) (c :: s)
  = cls c && (Re.run (Re.Many cls :: rest) s || Re.run rest s).
Proof. reflexivity. Qed.

Lemma run_many_nil cls rest : Re.run (Re.Many cls :: rest) [] = false.
Proof. reflexivity. Qed.

Lemma lit_true a c : Re.lit a c = true ↔ c = a.
Proof. unfold Re.lit. rewrite Ascii.eqb_eq. split; congruence. Qed.

Definition px : list ascii := ["p"; "x"]%char.
Definition px_newline : list ascii := ["p"; "x"; "010"]%char.

(** What follows the digits of a height. *)
Lemma run_px s :
  Re.run [Re.One (Re.lit "p"); Re.One (Re.lit "x")] s = true
  ↔ s = px ∨ s = px_newline.
Proof.
  unfold px, px_newline. split.
  - destruct s as [|a [|b t]]; cbn [Re.run]; try discriminate.
    + rewrite andb_false_r. discriminate.
    + intros H. apply andb_prop in H as [Ha H]. apply andb_prop in H as [Hb H].
      apply lit_true in Ha, Hb. subst a b.
      destruct t as [|c [|d t]]; cbn [Re.at_end] in H; try discriminate; [by left|].
      apply Ascii.eqb_eq in H. subst c. by right.
  - intros [-> | ->]; reflexivity.
Qed.

(** [^\d+px$] accepts one or more digits and [px], and nothing else but a
    newline that ends the string. *)
Lemma height_pattern_accepts s :
  Re.run height_pattern s = true
  ↔ ∃ ds, ds ≠ [] ∧ forallb is_digit ds = true
          ∧ (s = ds ++ px ∨ s = ds ++ px_newline).
Proof.
  unfold height_pattern. split.
  - induction s as [|c s IH]; [rewrite run_many_nil; discriminate|].
    rewrite run_many_cons. intros H.
    apply andb_prop in H as [Hc H]. apply orb_prop in H as [H|H].
    + destruct (IH H) as (ds & _ & Hds & Hs). exists (c :: ds).
      split; [discriminate|]. split; [cbn; by rewrite Hc, Hds|].
      destruct Hs as [-> | ->]; [by left | by right].
    + apply run_px in H. exists [c].
      split; [discriminate|]. split; [cbn; by rewrite Hc|].
      destruct H as [-> | ->]; [by left | by right].
  - intros (ds & Hne & Hds & Hs).
    assert (Re.run [Re.Many is_digit; Re.One (Re.lit "p"); Re.One (Re.lit "x")]
              (ds ++ px) = true
            ∧ Re.run [Re.Many is_digit; Re.One (Re.lit "p"); Re.One (Re.lit "x")]
                (ds ++ px_newline) = true) as [H1 H2].
    { clear Hs. induction ds as [|c ds IH]; [contradiction|].
      cbn [forallb] in Hds. apply andb_prop in Hds as [Hc Hds].
      change ((c :: ds) ++ px) with (c :: (ds ++ px)).
      change ((c :: ds) ++ px_newline) with (c :: (ds ++ px_newline)).
      rewrite !run_many_cons, Hc. cbn [andb].
      destruct ds as [|d ds].
      - split; apply orb_true_iff; right; reflexivity.
      - destruct IH as [IH1 IH2]; [discriminate | exact Hds |].
        rewrite IH1, IH2. by split. }
    destruct Hs as [-> | ->]; assumption.
Qed.

(** ** The store of dicts *)

Lemma parse_all_grows raws (h : heap) :
  ∃ ds, (parse_all raws h).2 = h ++ ds.
Proof.
  revert h. induction raws as [|bg raws IH]; intros h; cbn.
  - exists []. by rewrite app_nil_r.
  - destruct (IH (h ++ [parse_background bg default_size default_position]))
      as [ds Hds].
    destruct (parse_all raws _) as [ls h2]. cbn in *.
    exists (parse_background bg default_size default_position :: ds).
    rewrite Hds, <- app_assoc. reflexivity.
Qed.

Lemma setitem_other l l' key v (h : heap) :
  l ≠ l' → setitem l key v h !! l' = h !! l'.
Proof. intros Hne. unfold setitem. by apply list_lookup_alter_ne. Qed.

(** ** The loop over the comments *)

Section ValidatorFacts.

Variable file_exists : string → bool.

Lemma check_comments_app pre : ∀ rest i acc authors,
  check_comments file_exists i pre acc = Ok authors →
  check_comments file_exists i (pre ++ rest) acc
  = check_comments file_exists (i + length pre) rest authors.
Proof.
  induction pre as [|c pre IH]; intros rest i acc authors H; cbn in *.
  - inversion H. by rewrite Nat.add_0_r.
  - destruct (check_comment file_exists i c) as [a|e]; cbn in *; [|discriminate].
    rewrite (IH _ _ _ _ H). f_equal. lia.
Qed.

(** The author a comment passes with is its [author] field. *)
Lemma comment_fields_author i c author :
  comment_fields file_exists i c = Ok author →
  Py.getitem c "author" = Ok (JStr author).
Proof.
  unfold comment_fields, fail. intros H.
  destruct (Py.contains "author" c) as [[]|]; cbn in H; [|discriminate..].
  destruct (Py.contains "message" c) as [[]|]; cbn in H; [|discriminate..].
  destruct (Py.getitem c "author") as [a|]; cbn in H; [|discriminate].
  destruct a; try discriminate H. cbn [nonblank_str] in H.
  destruct (negb _) in H; [discriminate|]. cbn in H.
  destruct (Py.getitem c "message") as [msg|]; cbn in H; [|discriminate].
  destruct (negb (nonblank_str msg)); [discriminate|]. cbn in H.
  destruct (Py.contains "profile_image" c) as [has|]; cbn in H; [|discriminate].
  match type of H with bind ?r _ = _ => destruct r; cbn in H; [|discriminate] end.
  by inversion H.
Qed.

(** A comment that passes the checks of the validator is one the paginator
    can measure: its message is a string. *)
Lemma comment_fields_measurable i c author :
  comment_fields file_exists i c = Ok author → measurable c = true.
Proof.
  unfold comment_fields, fail. intros H.
  destruct (Py.contains "author" c) as [[]|]; cbn in H; [|discriminate..].
  destruct (Py.contains "message" c) as [[]|]; cbn in H; [|discriminate..].
  destruct (Py.getitem c "author") as [a|]; cbn in H; [|discriminate].
  destruct (negb (nonblank_str a)); [discriminate|]. cbn in H.
  destruct (Py.getitem c "message") as [msg|] eqn:Hmsg; cbn in H; [|discriminate].
  destruct msg as [| | |s| |]; try discriminate H.
  destruct c as [| | | | |m]; try discriminate Hmsg.
  cbn in Hmsg. destruct (m !! "message") as [v|] eqn:Hv; [|discriminate].
  inversion Hmsg. subst v.
  unfold measurable, comment_weight. cbn. rewrite Hv. reflexivity.
Qed.

Lemma check_comment_author i c author :
  check_comment file_exists i c = Ok author →
  Py.getitem c "author" = Ok (JStr author).
Proof.
  unfold check_comment. intros H.
  destruct (comment_fields file_exists i c) as [a|] eqn:Hf; cbn in H; [|discriminate].
  destruct (comment_height i c); cbn in H; [|discriminate].
  inversion H. subst. by eapply comment_fields_author.
Qed.

Lemma check_comments_authors comments : ∀ i acc authors,
  check_comments file_exists i comments acc = Ok authors →
  ∃ new, authors = acc ++ new
         ∧ Forall2 (λ c a, Py.getitem c "author" = Ok (JStr a)) comments new.
Proof.
  induction comments as [|c comments IH]; intros i acc authors H; cbn in H.
  - inversion H. exists []. by rewrite app_nil_r.
  - destruct (check_comment file_exists i c) as [a|] eqn:Hc; cbn in H; [|discriminate].
    destruct (IH _ _ _ H) as (new & -> & Hnew).
    exists (a :: new). rewrite <- app_assoc. split; [reflexivity|].
    constructor; [by eapply check_comment_author | exact Hnew].
Qed.

End ValidatorFacts.

(** The authors the warning names are those that occur more than once. *)
Lemma elem_of_duplicates a authors :
  a ∈ duplicates authors ↔ 1 < count a authors.
Proof.
  unfold duplicates. rewrite list_elem_of_filter, elem_of_remove_dups.
  split; [tauto|]. intros H. split; [exact H|].
  unfold count in H.
  destruct (filter (λ b, b = a) authors) as [|b t] eqn:Hf; [cbn in H; lia|].
  assert (b ∈ filter (λ b, b = a) authors) as Hb by (rewrite Hf; left).
  apply list_elem_of_filter in Hb as [-> Hb]. exact Hb.
Qed.

(** ** The validator on the example data *)

Example height_without_unit_rejected :
  validate all_files
    (JObj (sample_dataset [tribute "Ann" 50; with_height (JStr "120")]))
  = ([PersonValid; BackgroundsValid],
     Raise (ValidationError
              "comments[1].height must be in format 'XXXpx'. Got: '120'")).
Proof. vm_compute. reflexivity. Qed.

Example height_with_unit_accepted :
  validate all_files
    (JObj (sample_dataset [tribute "Ann" 50; with_height (JStr "120px")]))
  = ([PersonValid; BackgroundsValid; CommentsValid 2], Ok ()).
Proof. vm_compute. reflexivity. Qed.

Example paginate_three_short :
  let c1 := comment [("author", JStr "a"); ("message", JStr "one")] in
  let c2 := comment [("author", JStr "b"); ("message", JStr "two")] in
  let c3 := comment [("author", JStr "c"); ("message", JStr "three")] in
  paginate_comments [c1; c2; c3] 2400 2 = Ok [[c1; c2]; [c3]].
Proof. reflexivity. Qed.

Example oversized_comment_alone :
  paginate_comments [tribute "Ann" 50; tribute "Bob" 3000; tribute "Cy" 120]
    2400 2
  = Ok [[tribute "Ann" 50]; [tribute "Bob" 3000]; [tribute "Cy" 120]].
Proof. vm_compute. reflexivity. Qed.

(** ** The guarantees of the paginator *)

(** C1. For every sequence of comments, every weight budget and every page
    cap, [paginate_comments] returns pages whose concatenation, in output
    order, is the input sequence: no comment is lost, duplicated or moved. *)
Theorem paginate_concat (comments : list json) (max_chars : Q) (max_per_page : Z) :
  forallb measurable comments = true →
  ∃ pgs, paginate_comments comments max_chars max_per_page = Ok pgs
         ∧ concat pgs = comments.
Proof.
  intros Hcs.
  destruct (paginate_comments_spec max_chars max_per_page comments Hcs)
    as (pgs & Hrun & Hcat & _).
  eauto.
Qed.

Lemma paginate_concat_witness :
  ∃ pgs, paginate_comments sample_comments 2400 2 = Ok pgs
         ∧ concat pgs = sample_comments.
Proof. apply paginate_concat. vm_compute. reflexivity. Defined.

(** C2. When every comment weighs at most the budget, every page weighs at
    most the budget.  A page can weigh more only when it is a single comment
    that alone weighs more, and every such comment is there, alone on a page
    of its own. *)
Theorem paginate_weight_budget (comments : list json) (max_chars : Q)
    (max_per_page : Z) :
  forallb measurable comments = true →
  ∃ pgs, paginate_comments comments max_chars max_per_page = Ok pgs
    ∧ (Forall (λ c, (weight c <= max_chars)%Q) comments →
       Forall (λ p, (page_weight p <= max_chars)%Q) pgs)
    ∧ (∀ p, p ∈ pgs → (max_chars < page_weight p)%Q →
       ∃ c, p = [c] ∧ (max_chars < weight c)%Q)
    ∧ (∀ c, c ∈ comments → (max_chars < weight c)%Q → [c] ∈ pgs).
Proof.
  intros Hcs.
  destruct (paginate_comments_spec max_chars max_per_page comments Hcs)
    as (pgs & Hrun & Hcat & Hok & _).
  rewrite Forall_forall in Hok.
  exists pgs. split; [exact Hrun|]. split; [|split].
  - intros Hall. rewrite Forall_forall in Hall. apply Forall_forall.
    intros p Hp. destruct (Hok p Hp) as [Hle | (c & -> & Hlt)]; [exact Hle|].
    assert (c ∈ comments) as Hc.
    { rewrite <- Hcat. apply elem_of_concat. exists [c]. split; [exact Hp | left]. }
    specialize (Hall c Hc). cbn beta in Hall. lra.
  - intros p Hp Hlt. destruct (Hok p Hp) as [Hle | Hone]; [lra | exact Hone].
  - intros c Hc Hlt. rewrite <- Hcat in Hc.
    apply elem_of_concat in Hc as (p & Hp & Hcp).
    destruct (Hok p Hp) as [Hle | (d & -> & _)].
    + pose proof (page_weight_elem p c Hcp). lra.
    + apply list_elem_of_singleton in Hcp. by subst d.
Qed.

Lemma paginate_weight_budget_witness :
  ∃ pgs, paginate_comments sample_comments 2400 2 = Ok pgs
    ∧ (Forall (λ c, (weight c <= 2400)%Q) sample_comments →
       Forall (λ p, (page_weight p <= 2400)%Q) pgs)
    ∧ (∀ p, p ∈ pgs → (2400 < page_weight p)%Q →
       ∃ c, p = [c] ∧ (2400 < weight c)%Q)
    ∧ (∀ c, c ∈ sample_comments → (2400 < weight c)%Q → [c] ∈ pgs).
Proof. apply paginate_weight_budget. vm_compute. reflexivity. Defined.

(** C3, as the code has it.  Every page holds at least one comment and at
    most [max 1 max_per_page] of them: at most [max_per_page] when that is 1
    or more, and exactly one otherwise. *)
Theorem paginate_page_cap (comments : list json) (max_chars : Q)
    (max_per_page : Z) :
  forallb measurable comments = true →
  ∃ pgs, paginate_comments comments max_chars max_per_page = Ok pgs
    ∧ Forall (λ p, (1 ≤ Z.of_nat (length p) ≤ Z.max 1 max_per_page)%Z) pgs.
Proof.
  intros Hcs.
  destruct (paginate_comments_spec max_chars max_per_page comments Hcs)
    as (pgs & Hrun & _ & _ & Hsize).
  eauto.
Qed.

Lemma paginate_page_cap_witness :
  ∃ pgs, paginate_comments sample_comments 2400 2 = Ok pgs
    ∧ Forall (λ p, (1 ≤ Z.of_nat (length p) ≤ Z.max 1 2)%Z) pgs.
Proof. apply paginate_page_cap. vm_compute. reflexivity. Defined.

(** C3, as stated, fails when the cap is below 1: with a cap of 0 the page of
    a single comment holds one comment, more than the cap. *)
Lemma paginate_page_cap_zero :
  ∃ pgs, paginate_comments [tribute "Ann" 50] 2400 0 = Ok pgs
    ∧ ¬ Forall (λ p, (Z.of_nat (length p) ≤ 0)%Z) pgs.
Proof.
  exists [[tribute "Ann" 50]]. split; [reflexivity|].
  intros H. apply Forall_cons in H as [H _]. cbn in H. lia.
Qed.

(** C7. The weight of a comment is the length of its message when that is
    more than 120, and half the length otherwise; a message of exactly 120
    characters counts as 60. *)
Theorem comment_weight_rule (fields : gmap string json) (message : string) :
  fields !! "message" = Some (JStr message) →
  let n := String.length message in
  comment_weight (JObj fields) = Ok (effective_len n)
  ∧ ((120 < n)%nat → (effective_len n == inject_Z (Z.of_nat n))%Q)
  ∧ ((n ≤ 120)%nat → (effective_len n == inject_Z (Z.of_nat n) * (1 # 2))%Q)
  ∧ (n = 120 → (effective_len n == 60)%Q).
Proof.
  intros Hmsg n. split; [|split; [|split]].
  - unfold comment_weight. cbn. rewrite Hmsg. reflexivity.
  - intros Hn. unfold effective_len. rewrite bool_decide_eq_true_2 by exact Hn.
    reflexivity.
  - intros Hn. unfold effective_len. rewrite bool_decide_eq_false_2 by lia.
    reflexivity.
  - intros ->. reflexivity.
Qed.

Lemma comment_weight_rule_witness :
  let n := String.length (text 120) in
  comment_weight (tribute "Cy" 120) = Ok (effective_len n)
  ∧ ((120 < n)%nat → (effective_len n == inject_Z (Z.of_nat n))%Q)
  ∧ ((n ≤ 120)%nat → (effective_len n == inject_Z (Z.of_nat n) * (1 # 2))%Q)
  ∧ (n = 120 → (effective_len n == 60)%Q).
Proof.
  apply (comment_weight_rule
           (list_to_map [("author", JStr "Cy"); ("message", JStr (text 120))])
           (text 120)).
  vm_compute. reflexivity.
Defined.

(** C10. A comment with no [message] key is measured as the empty message:
    its weight is 0, the paginator goes on and places it where it stands in
    the input, and the weight condition holds at it only when the running
    weight was over the budget already. *)
Theorem paginate_missing_message (fields : gmap string json) :
  fields !! "message" = None →
  Py.get (JObj fields) "message" (JStr "") = Ok (JStr "")
  ∧ (∃ w, comment_weight (JObj fields) = Ok w ∧ (w == 0)%Q
       ∧ ∀ max_chars max_per_page st,
           paginate_step max_chars max_per_page st (JObj fields)
           = Ok (stepped max_chars max_per_page st (JObj fields) w)
           ∧ (overflows max_chars st w = true ↔ (max_chars < current_len st)%Q))
  ∧ (∀ before after max_chars max_per_page,
       forallb measurable before = true → forallb measurable after = true →
       ∃ pgs, paginate_comments (before ++ JObj fields :: after)
                max_chars max_per_page = Ok pgs
              ∧ concat pgs = before ++ JObj fields :: after).
Proof.
  intros Hnone.
  assert (comment_weight (JObj fields) = Ok (effective_len 0)) as Hw.
  { unfold comment_weight. cbn. rewrite Hnone. reflexivity. }
  split; [|split].
  - cbn. rewrite Hnone. reflexivity.
  - exists (effective_len 0). split; [exact Hw|]. split; [reflexivity|].
    intros max_chars max_per_page st. split.
    + by apply paginate_step_weight.
    + unfold overflows. rewrite negb_true_iff, <- not_true_iff_false, Qle_bool_iff.
      assert (effective_len 0 == 0)%Q as H0 by reflexivity.
      split; intros H; lra.
  - intros before after max_chars max_per_page Hb Ha.
    destruct (paginate_comments_spec max_chars max_per_page
                (before ++ JObj fields :: after)) as (pgs & Hrun & Hcat & _).
    + rewrite forallb_app. cbn [forallb]. rewrite Hb, Ha.
      unfold measurable. rewrite Hw. reflexivity.
    + eauto.
Qed.

Lemma paginate_missing_message_witness :
  Py.get (comment [("author", JStr "Eve")]) "message" (JStr "") = Ok (JStr "")
  ∧ (∃ w, comment_weight (comment [("author", JStr "Eve")]) = Ok w
       ∧ (w == 0)%Q
       ∧ ∀ max_chars max_per_page st,
           paginate_step max_chars max_per_page st (comment [("author", JStr "Eve")])
           = Ok (stepped max_chars max_per_page st
                   (comment [("author", JStr "Eve")]) w)
           ∧ (overflows max_chars st w = true ↔ (max_chars < current_len st)%Q))
  ∧ (∀ before after max_chars max_per_page,
       forallb measurable before = true → forallb measurable after = true →
       ∃ pgs, paginate_comments (before ++ comment [("author", JStr "Eve")] :: after)
                max_chars max_per_page = Ok pgs
              ∧ concat pgs = before ++ comment [("author", JStr "Eve")] :: after).
Proof.
  apply (paginate_missing_message (list_to_map [("author", JStr "Eve")])).
  vm_compute. reflexivity.
Defined.

(** ** The guarantees of the background resolver *)

(** C6. [parse_background] returns the record the specification describes:
    for a plain string, the string as image with the default size and
    position; for a structured object, each of the three fields from the
    object, an absent one replaced by its default (the empty string for the
    image); for anything else, the empty image with the defaults.  The dict
    has these three keys and no other. *)
Theorem parse_background_resolves (bg default_size default_position : json) :
  let spec := resolve_spec (shape bg) default_size default_position in
  let d := parse_background bg default_size default_position in
  d !! "image" = Some (spec_image spec)
  ∧ d !! "size" = Some (spec_size spec)
  ∧ d !! "position" = Some (spec_position spec)
  ∧ dom d = {[ "image"; "size"; "position" ]}.
Proof.
  destruct bg as [| | | s | |m]; cbn;
    repeat split; try (by simplify_map_eq);
    try (rewrite !dom_insert_L, dom_empty_L; set_solver);
    destruct (m !! "image"), (m !! "size"), (m !! "position");
    by simplify_map_eq.
Qed.

(** C5. In the render pass the pages background is the resolution of the raw
    [pages] entry when one is configured and of the raw [cover] entry
    otherwise; the cover background is the resolution of the raw [cover]
    entry when one is configured and of the top-level [background_image]
    otherwise.  The two are two dicts: setting a key of one leaves the other
    as it was, also when both come from the same raw entry. *)
Theorem render_backgrounds_scopes (data backgrounds : gmap string json) (h : heap) :
  backgrounds_of data = Some backgrounds →
  pages_list_ok backgrounds = true →
  ∃ ctx h',
    render_backgrounds (JObj data) h = Ok (ctx, h')
    ∧ h' !! background_cover ctx
      = Some (parse_background (raw_cover data backgrounds)
                default_size default_position)
    ∧ h' !! background_pages ctx
      = Some (parse_background (raw_pages backgrounds)
                default_size default_position)
    ∧ background_cover ctx ≠ background_pages ctx
    ∧ (∀ key v, setitem (background_cover ctx) key v h' !! background_pages ctx
                = h' !! background_pages ctx)
    ∧ (∀ key v, setitem (background_pages ctx) key v h' !! background_cover ctx
                = h' !! background_cover ctx).
Proof.
  intros Hb Hlist.
  assert (Py.get (JObj data) "backgrounds" (JObj ∅) = Ok (JObj backgrounds)) as Hget.
  { unfold backgrounds_of in Hb. cbn.
    destruct (data !! "backgrounds") as [[]|]; cbn; congruence. }
  unfold pages_list_ok in Hlist.
  destruct (Py.iter (default (JArr []) (backgrounds !! "pages_list")))
    as [raws|] eqn:Hiter; [|discriminate].
  set (c := parse_background (raw_cover data backgrounds) default_size default_position).
  set (p := parse_background (raw_pages backgrounds) default_size default_position).
  destruct (parse_all_grows raws ((h ++ [c]) ++ [p])) as [ds Hds].
  destruct (parse_all raws ((h ++ [c]) ++ [p])) as [ls h3] eqn:Hall.
  cbn in Hds. subst h3.
  exists {| background_cover := length h;
            background_pages := length (h ++ [c]);
            background_pages_list := ls |}, (((h ++ [c]) ++ [p]) ++ ds).
  assert (length h ≠ length (h ++ [c])) as Hne by (rewrite length_app; cbn; lia).
  split; [|split; [|split; [|split; [|split]]]];
    cbn [background_cover background_pages].
  - unfold render_backgrounds. rewrite Hget. cbn.
    change (default (default JNull (data !! "background_image"))
              (backgrounds !! "cover")) with (raw_cover data backgrounds).
    change (default (default JNull (backgrounds !! "cover"))
              (backgrounds !! "pages")) with (raw_pages backgrounds).
    fold c p. cbn in Hiter. rewrite Hiter. cbn. rewrite Hall. reflexivity.
  - rewrite <- !app_assoc. rewrite lookup_app_r by lia.
    by rewrite Nat.sub_diag.
  - rewrite lookup_app_l by (rewrite !length_app; cbn; lia).
    rewrite lookup_app_r by lia. by rewrite Nat.sub_diag.
  - exact Hne.
  - intros key v. by apply setitem_other.
  - intros key v. by apply setitem_other.
Qed.

Lemma render_backgrounds_scopes_witness :
  ∃ ctx h',
    render_backgrounds (JObj (sample_dataset sample_comments)) [] = Ok (ctx, h')
    ∧ h' !! background_cover ctx
      = Some (parse_background
                (raw_cover (sample_dataset sample_comments)
                   (list_to_map [("cover", sample_cover)]))
                default_size default_position)
    ∧ h' !! background_pages ctx
      = Some (parse_background (raw_pages (list_to_map [("cover", sample_cover)]))
                default_size default_position)
    ∧ background_cover ctx ≠ background_pages ctx
    ∧ (∀ key v, setitem (background_cover ctx) key v h' !! background_pages ctx
                = h' !! background_pages ctx)
    ∧ (∀ key v, setitem (background_pages ctx) key v h' !! background_cover ctx
                = h' !! background_cover ctx).
Proof.
  apply (render_backgrounds_scopes (sample_dataset sample_comments)
           (list_to_map [("cover", sample_cover)]) []).
  - vm_compute. reflexivity.
  - vm_compute. reflexivity.
Defined.

(** ** The validator *)

(** C4. A comment whose [height] is the number 120 makes [validate_comments]
    raise [TypeError], whatever the file system holds: the pattern is matched
    against a value that is no string, where the checks of [author] and
    [message] test for a string first.  The error is no [ValidationError]
    and names no path; [main] reports it as unexpected. *)
Theorem validate_height_number_escapes :
  (∀ file_exists,
     validate_comments file_exists
       (JObj (sample_dataset [with_height (JNum 120)]))
     = ([], Raise TypeError))
  ∧ validate all_files (JObj (sample_dataset [with_height (JNum 120)]))
    = ([PersonValid; BackgroundsValid], Raise TypeError)
  ∧ exit_status all_files (JObj (sample_dataset [with_height (JNum 120)])) = 1%Z.
Proof.
  split; [|split].
  - intros file_exists. reflexivity.
  - vm_compute. reflexivity.
  - vm_compute. reflexivity.
Qed.

(** C8. When the checks of the person, of the backgrounds and of every
    comment pass, validation succeeds whether or not authors repeat.  When
    some author occurs more than once the run prints the warning, which
    names the authors that do; otherwise it prints none. *)
Theorem duplicate_authors_warn (file_exists : string → bool) (data : json)
    (comments : list json) (authors : list string) :
  person_checks file_exists data = Ok () →
  backgrounds_checks file_exists data = Ok () →
  comments_checks file_exists data = Ok (comments, authors) →
  Forall2 (λ c a, Py.getitem c "author" = Ok (JStr a)) comments authors
  ∧ ∃ warning,
      validate file_exists data
      = ([PersonValid; BackgroundsValid] ++ warning
         ++ [CommentsValid (length comments)], Ok ())
      ∧ exit_status file_exists data = 0%Z
      ∧ ((∃ a, (1 < count a authors)%nat) →
         ∃ dups, warning = [DuplicateAuthors dups]
                 ∧ ∀ a, a ∈ dups ↔ (1 < count a authors)%nat)
      ∧ ((∀ a, (count a authors ≤ 1)%nat) → warning = []).
Proof.
  intros Hp Hb Hc. split.
  - unfold comments_checks, fail in Hc.
    destruct (Py.contains "comments" data) as [[]|]; cbn in Hc; [|discriminate..].
    destruct (Py.getitem data "comments") as [[| | | |l|]|]; cbn in Hc;
      try discriminate.
    case_bool_decide; [discriminate|].
    destruct (check_comments file_exists 0 l []) as [au|] eqn:Hl; cbn in Hc;
      [|discriminate].
    inversion Hc. subst.
    destruct (check_comments_authors _ _ _ _ _ Hl) as (new & -> & Hnew).
    exact Hnew.
  - assert (validate file_exists data
            = ([PersonValid; BackgroundsValid]
               ++ (if bool_decide (duplicates authors = []) then []
                   else [DuplicateAuthors (duplicates authors)])
               ++ [CommentsValid (length comments)], Ok ())) as Hv.
    { unfold validate, validate_person, validate_backgrounds, validate_comments,
        report, and_then. rewrite Hp, Hb, Hc. reflexivity. }
    eexists. split; [exact Hv|]. split; [|split].
    + unfold exit_status. rewrite Hv. reflexivity.
    + intros [a Ha]. exists (duplicates authors). split.
      * rewrite bool_decide_eq_false_2; [reflexivity|].
        intros Hnil. apply elem_of_duplicates in Ha. rewrite Hnil in Ha.
        by apply elem_of_nil in Ha.
      * intros b. apply elem_of_duplicates.
    + intros Hall. rewrite bool_decide_eq_true_2; [reflexivity|].
      destruct (duplicates authors) as [|a t] eqn:Hd; [reflexivity|].
      assert (a ∈ duplicates authors) as Ha by (rewrite Hd; left).
      apply elem_of_duplicates in Ha. specialize (Hall a). lia.
Qed.

Lemma duplicate_authors_warn_witness :
  Forall2 (λ c a, Py.getitem c "author" = Ok (JStr a))
    sample_comments ["Ann"; "Bob"; "Cy"; "Ann"]
  ∧ ∃ warning,
      validate all_files (JObj (sample_dataset sample_comments))
      = ([PersonValid; BackgroundsValid] ++ warning
         ++ [CommentsValid (length sample_comments)], Ok ())
      ∧ exit_status all_files (JObj (sample_dataset sample_comments)) = 0%Z
      ∧ ((∃ a, (1 < count a ["Ann"; "Bob"; "Cy"; "Ann"])%nat) →
         ∃ dups, warning = [DuplicateAuthors dups]
                 ∧ ∀ a, a ∈ dups ↔ (1 < count a ["Ann"; "Bob"; "Cy"; "Ann"])%nat)
      ∧ ((∀ a, (count a ["Ann"; "Bob"; "Cy"; "Ann"] ≤ 1)%nat) → warning = []).
Proof.
  apply (duplicate_authors_warn all_files (JObj (sample_dataset sample_comments))
           sample_comments ["Ann"; "Bob"; "Cy"; "Ann"]).
  - vm_compute. reflexivity.
  - vm_compute. reflexivity.
  - vm_compute. reflexivity.
Defined.

(** C9. For a comment that carries a [height] string and passes the checks
    before it, after comments that pass: when the string does not match the
    pattern, validation raises the [ValidationError] that names
    [comments[i].height] and quotes the string; when it matches, the check
    of the comment passes.  ["120"] does not match and ["120px"] does. *)
Theorem height_check (file_exists : string → bool) (data fields : gmap string json)
    (before after : list json) (authors : list string) (author height : string) :
  data !! "comments" = Some (JArr (before ++ JObj fields :: after)) →
  check_comments file_exists 0 before [] = Ok authors →
  comment_fields file_exists (length before) (JObj fields) = Ok author →
  fields !! "height" = Some (JStr height) →
  (Re.matches height_pattern (JStr height) = Ok false →
   validate_comments file_exists (JObj data)
   = ([], Raise (ValidationError
                   ("comments[" +:+ pretty (length before)
                    +:+ "].height must be in format 'XXXpx'. Got: '"
                    +:+ height +:+ "'"))))
  ∧ (Re.matches height_pattern (JStr height) = Ok true →
     comment_height (length before) (JObj fields) = Ok ()
     ∧ check_comment file_exists (length before) (JObj fields) = Ok author)
  ∧ Re.matches height_pattern (JStr "120") = Ok false
  ∧ Re.matches height_pattern (JStr "120px") = Ok true.
Proof.
  intros Hdata Hbefore Hfields Hheight.
  assert (∀ m, Re.matches height_pattern (JStr height) = Ok m →
               comment_height (length before) (JObj fields)
               = if negb m then
                   fail ("comments[" +:+ pretty (length before)
                         +:+ "].height must be in format 'XXXpx'. Got: '"
                         +:+ height +:+ "'")
                 else Ok ()) as Hh.
  { intros m Hm. unfold comment_height.
    cbn [Py.contains Py.getitem]. rewrite Hheight.
    rewrite bool_decide_eq_true_2 by eauto. cbn [bind].
    rewrite Hm. reflexivity. }
  split; [|split; [|split]].
  - intros Hm. unfold validate_comments, report, comments_checks.
    cbn [Py.contains Py.getitem]. rewrite Hdata.
    rewrite bool_decide_eq_true_2 by eauto. cbn [bind negb].
    rewrite bool_decide_eq_false_2 by (rewrite length_app; cbn; lia).
    rewrite (check_comments_app _ _ _ _ _ _ Hbefore), Nat.add_0_l.
    cbn [check_comments]. unfold check_comment.
    rewrite Hfields. cbn [bind]. rewrite (Hh _ Hm). reflexivity.
  - intros Hm. split; [exact (Hh _ Hm)|].
    unfold check_comment. rewrite Hfields. cbn [bind]. rewrite (Hh _ Hm).
    reflexivity.
  - reflexivity.
  - reflexivity.
Qed.

Lemma height_check_witness :
  (Re.matches height_pattern (JStr "120") = Ok false →
   validate_comments all_files
     (JObj (sample_dataset [tribute "Ann" 50; with_height (JStr "120")]))
   = ([], Raise (ValidationError
                   ("comments[" +:+ pretty (length [tribute "Ann" 50])
                    +:+ "].height must be in format 'XXXpx'. Got: '"
                    +:+ "120" +:+ "'"))))
  ∧ (Re.matches height_pattern (JStr "120") = Ok true →
     comment_height (length [tribute "Ann" 50]) (with_height (JStr "120")) = Ok ()
     ∧ check_comment all_files (length [tribute "Ann" 50])
         (with_height (JStr "120")) = Ok "Dee")
  ∧ Re.matches height_pattern (JStr "120") = Ok false
  ∧ Re.matches height_pattern (JStr "120px") = Ok true.
Proof.
  apply (height_check all_files
           (sample_dataset [tribute "Ann" 50; with_height (JStr "120")])
           (height_fields (JStr "120")) [tribute "Ann" 50] [] ["Ann"] "Dee" "120").
  - vm_compute. reflexivity.
  - vm_compute. reflexivity.
  - vm_compute. reflexivity.
  - vm_compute. reflexivity.
Defined.

(** ** More on the paginator *)

Lemma paginate_loop_app max_chars max_per_page pre : ∀ rest st,
  paginate_loop max_chars max_per_page (pre ++ rest) st
  = let* st' := paginate_loop max_chars max_per_page pre st in
    paginate_loop max_chars max_per_page rest st'.
Proof.
  induction pre as [|c pre IH]; intros rest st; [reflexivity|].
  cbn [app paginate_loop].
  destruct (paginate_step max_chars max_per_page st c) as [st1|e]; cbn [bind].
  - apply IH.
  - reflexivity.
Qed.

Lemma length_concat_bounds (lo hi : nat) (pgs : list (list json)) :
  Forall (λ p, (lo ≤ length p ≤ hi)%nat) pgs →
  (lo * length pgs ≤ length (concat pgs) ≤ hi * length pgs)%nat.
Proof.
  induction 1 as [|p pgs Hp _ IH]; cbn; [lia|].
  rewrite length_app. lia.
Qed.

Lemma singletons_concat (pgs : list (list json)) :
  Forall (λ p, length p = 1) pgs → pgs = (λ c, [c]) <$> concat pgs.
Proof.
  induction 1 as [|p pgs Hp _ IH]; [reflexivity|].
  destruct p as [|c [|d p]]; try discriminate Hp.
  cbn. by rewrite <- IH.
Qed.

(** The number of pages.  There are no more pages than comments, and the
    pages are enough to hold the comments at [max 1 max_per_page] a page; in
    particular there is no page when there is no comment, and only then. *)
Theorem paginate_page_count (comments : list json) (max_chars : Q)
    (max_per_page : Z) :
  forallb measurable comments = true →
  ∃ pgs, paginate_comments comments max_chars max_per_page = Ok pgs
    ∧ (length pgs ≤ length comments)%nat
    ∧ (Z.of_nat (length comments) ≤ Z.max 1 max_per_page * Z.of_nat (length pgs))%Z
    ∧ (pgs = [] ↔ comments = []).
Proof.
  intros Hcs.
  destruct (paginate_comments_spec max_chars max_per_page comments Hcs)
    as (pgs & Hrun & Hcat & _ & Hsize).
  assert (Forall (λ p, (1 ≤ length p ≤ Z.to_nat (Z.max 1 max_per_page))%nat) pgs) as Hb.
  { eapply Forall_impl; [exact Hsize|]. unfold size_ok. cbn. intros p Hp. lia. }
  apply length_concat_bounds in Hb. rewrite Hcat in Hb.
  exists pgs. split; [exact Hrun|]. split; [lia|]. split; [nia|].
  split; intros ->.
  - by rewrite <- Hcat.
  - destruct pgs; [reflexivity | cbn in Hb; lia].
Qed.

Lemma paginate_page_count_witness :
  ∃ pgs, paginate_comments sample_comments 2400 2 = Ok pgs
    ∧ (length pgs ≤ length sample_comments)%nat
    ∧ (Z.of_nat (length sample_comments) ≤ Z.max 1 2 * Z.of_nat (length pgs))%Z
    ∧ (pgs = [] ↔ sample_comments = []).
Proof. apply paginate_page_count. vm_compute. reflexivity. Defined.

(** With a cap of 1 or less every comment has a page of its own, whatever
    the weights and the budget. *)
Theorem paginate_cap_one (comments : list json) (max_chars : Q)
    (max_per_page : Z) :
  forallb measurable comments = true →
  (max_per_page ≤ 1)%Z →
  paginate_comments comments max_chars max_per_page
  = Ok ((λ c, [c]) <$> comments).
Proof.
  intros Hcs Hcap.
  destruct (paginate_comments_spec max_chars max_per_page comments Hcs)
    as (pgs & Hrun & Hcat & _ & Hsize).
  rewrite Hrun. f_equal. rewrite <- Hcat. apply singletons_concat.
  eapply Forall_impl; [exact Hsize|]. unfold size_ok. cbn. intros p Hp. lia.
Qed.

Lemma paginate_cap_one_witness :
  paginate_comments sample_comments 2400 1 = Ok ((λ c, [c]) <$> sample_comments).
Proof. apply paginate_cap_one; [vm_compute; reflexivity | lia]. Defined.

(** The paginator stops at the first comment it cannot measure, with that
    comment's error: [AttributeError] when the comment is no dict,
    [TypeError] when its message has no length.  No page is returned. *)
Theorem paginate_first_error (before after : list json) (c : json) (e : exn)
    (max_chars : Q) (max_per_page : Z) :
  forallb measurable before = true →
  comment_weight c = Raise e →
  paginate_comments (before ++ c :: after) max_chars max_per_page = Raise e
  ∧ (if Py.is_dict c then e = TypeError else e = AttributeError).
Proof.
  intros Hb Hc. split.
  - destruct (paginate_loop_rule max_chars max_per_page (λ _ _, True))
      with (cs := before) (pre := @nil json) (st := init) as (st & Hrun & _);
      [done.. |].
    unfold paginate_comments. fold init.
    rewrite paginate_loop_app, Hrun. cbn [bind paginate_loop].
    unfold paginate_step. rewrite Hc. reflexivity.
  - unfold comment_weight in Hc.
    destruct c as [| | | | |m]; cbn in Hc; try by inversion Hc.
    destruct (Py.len (default (JStr "") (m !! "message"))) eqn:Hlen;
      cbn in Hc; [discriminate|].
    inversion Hc. subst.
    destruct (default (JStr "") (m !! "message")); cbn in Hlen; congruence.
Qed.

Lemma paginate_first_error_witness :
  paginate_comments ([tribute "Ann" 50] ++ comment [("message", JNum 5)] :: [])
    2400 2 = Raise TypeError
  ∧ (if Py.is_dict (comment [("message", JNum 5)])
     then TypeError = TypeError else TypeError = AttributeError).
Proof.
  apply (paginate_first_error [tribute "Ann" 50] []
           (comment [("message", JNum 5)]) TypeError 2400 2).
  - vm_compute. reflexivity.
  - vm_compute. reflexivity.
Defined.

Section Greedy.

Variable max_chars : Q.
Variable max_per_page : Z.

(** The comment [c] does not go on the page [p]: the weight would pass the
    budget, or the page is full. *)
Definition forced (p : list json) (c : json) : Prop :=
  (max_chars < page_weight p + weight c)%Q
  ∨ (max_per_page ≤ Z.of_nat (length p))%Z.

(** Each page ends where the first comment of the next one did not fit. *)
Definition greedy (pgs : list (list json)) : Prop :=
  ∀ i p q c, pgs !! i = Some p → pgs !! S i = Some q → head q = Some c →
             forced p c.

Definition greedy_inv (st : pstate) : Prop :=
  weight_inv max_chars st
  ∧ (current_page st = [] → pages st = [])
  ∧ greedy (pages st ++ [current_page st]).

Lemma breaks_forced st c w :
  weight_inv max_chars st → weight c = w →
  breaks max_chars max_per_page st w = true → forced (current_page st) c.
Proof.
  intros (Hlen & _) <- Hb. unfold breaks in Hb.
  apply andb_prop in Hb as [_ Hb]. apply orb_prop in Hb as [Hb|Hb].
  - left. unfold overflows in Hb. apply negb_true_iff in Hb.
    apply not_true_iff_false in Hb. rewrite Qle_bool_iff in Hb. lra.
  - right. unfold page_full in Hb. by apply bool_decide_eq_true in Hb.
Qed.

Lemma greedy_inv_stepped st c w :
  greedy_inv st → comment_weight c = Ok w →
  greedy_inv (stepped max_chars max_per_page st c w).
Proof.
  intros (Hw & Hnil & Hg) Hc.
  split; [by apply weight_inv_stepped|].
  pose proof (weight_of c w Hc) as Hwc.
  unfold stepped.
  destruct (breaks max_chars max_per_page st w) eqn:Hb; cbn.
  - split; [discriminate|].
    intros i p q d Hp Hq Hd.
    destruct (decide (S i < length (pages st ++ [current_page st]))) as [Hlt|Hge].
    + rewrite lookup_app_l in Hq by exact Hlt.
      rewrite lookup_app_l in Hp by lia. by eapply Hg.
    + rewrite lookup_app_r in Hq by lia.
      destruct (S i - length (pages st ++ [current_page st])) as [|k] eqn:Hk;
        [|by destruct k].
      cbn in Hq. inversion Hq. subst q. cbn in Hd. inversion Hd. subst d.
      rewrite lookup_app_l in Hp by lia.
      rewrite length_app in Hk, Hge. cbn in Hk, Hge.
      rewrite lookup_app_r in Hp by lia.
      replace (i - length (pages st)) with 0 in Hp by lia.
      cbn in Hp. inversion Hp. subst p.
      by eapply breaks_forced.
  - split; [by destruct (current_page st)|].
    intros i p q d Hp Hq Hd.
    destruct (decide (S i < length (pages st))) as [Hlt|Hge].
    + rewrite lookup_app_l in Hq by exact Hlt.
      rewrite lookup_app_l in Hp by lia.
      eapply (Hg i p q d); [| |exact Hd]; by rewrite lookup_app_l by lia.
    + pose proof (lookup_lt_Some _ _ _ Hq) as Hlen.
      rewrite length_app in Hlen. cbn in Hlen.
      rewrite lookup_app_r in Hq by lia.
      replace (S i - length (pages st)) with 0 in Hq by lia.
      cbn in Hq. inversion Hq. subst q.
      rewrite lookup_app_l in Hp by lia.
      destruct (current_page st) as [|d' cur] eqn:Hcur.
      * rewrite Hnil in Hp by reflexivity. by rewrite lookup_nil in Hp.
      * cbn in Hd. inversion Hd. subst d'.
        eapply (Hg i p (d :: cur) d); [| |reflexivity].
        -- by rewrite lookup_app_l by lia.
        -- rewrite lookup_app_r by lia.
           by replace (S i - length (pages st)) with 0 by lia.
Qed.

Lemma paginate_greedy_pages cs :
  forallb measurable cs = true →
  ∃ pgs, paginate_comments cs max_chars max_per_page = Ok pgs ∧ greedy pgs.
Proof.
  intros Hcs.
  destruct (paginate_loop_rule max_chars max_per_page (λ _ st, greedy_inv st))
    with (cs := cs) (pre := @nil json) (st := init)
    as (st & Hrun & _ & Hnil & Hg).
  - intros pre st c w Hinv Hc. by apply greedy_inv_stepped.
  - exact Hcs.
  - split; [|split]; cbn.
    + split; [reflexivity|]. split; [constructor | by left].
    + done.
    + intros i p q c _ Hq. by destruct i.
  - exists (finish st). split.
    + unfold paginate_comments. fold init. rewrite Hrun. reflexivity.
    + unfold finish. case_bool_decide as Hcur; [|exact Hg].
      rewrite (Hnil Hcur). intros i p q c Hp. by rewrite lookup_nil in Hp.
Qed.

(** While the comments fit, in weight and in number, they stay on the
    current page and no page is closed. *)
Definition fits_inv (pre : list json) (st : pstate) : Prop :=
  (page_weight pre <= max_chars)%Q →
  (Z.of_nat (length pre) ≤ max_per_page)%Z →
  pages st = [] ∧ current_page st = pre
  ∧ (current_len st == page_weight pre)%Q.

Lemma fits_inv_stepped pre st c w :
  fits_inv pre st → comment_weight c = Ok w →
  fits_inv (pre ++ [c]) (stepped max_chars max_per_page st c w).
Proof.
  intros Hinv Hc Hweight Hcount.
  apply weight_of in Hc. subst w.
  rewrite page_weight_snoc in Hweight.
  rewrite length_app in Hcount. cbn in Hcount.
  pose proof (weight_nonneg c) as Hc0.
  destruct Hinv as (Hpages & Hcur & Hlen); [lra | lia |].
  assert (breaks max_chars max_per_page st (weight c) = false) as Hb.
  { unfold breaks, overflows, page_full.
    apply andb_false_intro2, orb_false_intro.
    - apply negb_false_iff, Qle_bool_iff. lra.
    - apply bool_decide_eq_false_2. rewrite Hcur. lia. }
  unfold stepped. rewrite Hb. cbn.
  rewrite Hcur. split; [exact Hpages|]. split; [reflexivity|].
  rewrite page_weight_snoc. lra.
Qed.

End Greedy.

(** The pages are filled greedily.  Where a page is followed by another, the
    first comment of the next page did not fit on it: with that comment the
    weight of the page would pass the budget, or the page has reached the
    cap. *)
Theorem paginate_greedy (comments : list json) (max_chars : Q)
    (max_per_page : Z) :
  forallb measurable comments = true →
  ∃ pgs, paginate_comments comments max_chars max_per_page = Ok pgs
    ∧ ∀ i p c q, pgs !! i = Some p → pgs !! S i = Some (c :: q) →
        (max_chars < page_weight p + weight c)%Q
        ∨ (max_per_page ≤ Z.of_nat (length p))%Z.
Proof.
  intros Hcs.
  destruct (paginate_greedy_pages max_chars max_per_page comments Hcs)
    as (pgs & Hrun & Hg).
  exists pgs. split; [exact Hrun|].
  intros i p c q Hp Hq. by apply (Hg i p (c :: q) c).
Qed.

Lemma paginate_greedy_witness :
  ∃ pgs, paginate_comments sample_comments 2400 2 = Ok pgs
    ∧ ∀ i p c q, pgs !! i = Some p → pgs !! S i = Some (c :: q) →
        (2400 < page_weight p + weight c)%Q
        ∨ (2 ≤ Z.of_nat (length p))%Z.
Proof. apply paginate_greedy. vm_compute. reflexivity. Defined.

(** Comments that fit together, in weight and in number, come out as one
    page. *)
Theorem paginate_single_page (comments : list json) (max_chars : Q)
    (max_per_page : Z) :
  forallb measurable comments = true →
  comments ≠ [] →
  (page_weight comments <= max_chars)%Q →
  (Z.of_nat (length comments) ≤ max_per_page)%Z →
  paginate_comments comments max_chars max_per_page = Ok [comments].
Proof.
  intros Hcs Hne Hweight Hcount.
  destruct (paginate_loop_rule max_chars max_per_page
              (fits_inv max_chars max_per_page))
    with (cs := comments) (pre := @nil json) (st := init)
    as (st & Hrun & Hfits).
  - intros pre st c w. apply fits_inv_stepped.
  - exact Hcs.
  - intros _ _. cbn. repeat split; reflexivity.
  - destruct (Hfits Hweight Hcount) as (Hpages & Hcur & _).
    unfold paginate_comments. fold init. rewrite Hrun. cbn [bind].
    rewrite Hpages, Hcur. cbn. by rewrite bool_decide_eq_false_2.
Qed.

Lemma paginate_single_page_witness :
  paginate_comments [tribute "Ann" 50; tribute "Cy" 120] 2400 2
  = Ok [[tribute "Ann" 50; tribute "Cy" 120]].
Proof.
  apply paginate_single_page.
  - vm_compute. reflexivity.
  - discriminate.
  - vm_compute. discriminate.
  - vm_compute. discriminate.
Defined.

(** ** What the validator accepts *)

Lemma bind_ok {A B} (r : result A) (k : A → result B) (b : B) :
  bind r k = Ok b ↔ ∃ a, r = Ok a ∧ k a = Ok b.
Proof.
  destruct r as [a|e]; cbn; split.
  - eauto.
  - by intros (? & [= <-] & ?).
  - discriminate.
  - by intros (? & ? & ?).
Qed.

Lemma getitem_ok (x : json) (key : string) (v : json) :
  Py.getitem x key = Ok v ↔ ∃ m, x = JObj m ∧ m !! key = Some v.
Proof.
  split.
  - destruct x as [| | | | |m]; cbn; try discriminate.
    destruct (m !! key) eqn:Hk; [|discriminate]. intros [= <-]. eauto.
  - intros (m & -> & Hk). cbn. by rewrite Hk.
Qed.

Lemma contains_dict (key : string) (m : gmap string json) (v : json) :
  m !! key = Some v → Py.contains key (JObj m) = Ok true.
Proof. intros H. cbn. rewrite bool_decide_eq_true_2 by eauto. reflexivity. Qed.

Lemma contains_dict_none (key : string) (m : gmap string json) :
  m !! key = None → Py.contains key (JObj m) = Ok false.
Proof.
  intros H. cbn. rewrite bool_decide_eq_false_2; [reflexivity|].
  rewrite H. by intros [? ?].
Qed.

Lemma nonblank_str_is_str (x : json) :
  nonblank_str x = true → ∃ s, x = JStr s.
Proof. destruct x; try discriminate. eauto. Qed.

Lemma existsb_eq_str (x : json) (l : list string) :
  existsb (λ s, Py.eq_str s x) l = true ↔ ∃ s, x = JStr s ∧ s ∈ l.
Proof.
  rewrite existsb_exists. split.
  - intros (s & Hin & Heq). destruct x; try discriminate.
    cbn in Heq. apply String.eqb_eq in Heq. subst.
    eexists. split; [reflexivity|]. by apply list_elem_of_In.
  - intros (s & -> & Hin). exists s. split; [by apply list_elem_of_In|].
    cbn. apply String.eqb_refl.
Qed.

(** A step of reading a successful run backwards. *)
Ltac ok_bind H a E :=
  lazymatch type of H with
  | bind ?r _ = Ok _ =>
      destruct r as [a|] eqn:E; cbn [bind] in H; [|discriminate H]
  end.

Ltac ok_if H E :=
  lazymatch type of H with
  | (if ?c then _ else _) = Ok _ => destruct c eqn:E; try discriminate H
  end.

Section Accepts.

Variable file_exists : string → bool.

Lemma validate_file_exists_ok (filepath : json) (description : string) :
  validate_file_exists file_exists filepath description = Ok ()
  ↔ ∃ p, filepath = JStr p ∧ file_exists p = true.
Proof.
  unfold validate_file_exists, fail. split.
  - destruct filepath as [| | |p| |]; try discriminate.
    destruct (file_exists p) eqn:Hp; [eauto | discriminate].
  - intros (p & -> & Hp). by rewrite Hp.
Qed.

(** A background object of the data model: a dict with an image that
    exists, a size that is one of the three words or a pair of percentages,
    and a position that is not blank. *)
Definition background_ok (bg : json) : Prop :=
  ∃ m image size position,
    bg = JObj m
    ∧ m !! "image" = Some (JStr image) ∧ file_exists image = true
    ∧ m !! "size" = Some (JStr size)
    ∧ (size ∈ valid_sizes
       ∨ Re.run percentage_pattern (String.list_ascii_of_string size) = true)
    ∧ m !! "position" = Some position ∧ nonblank_str position = true.

Lemma validate_background_object_ok (bg : json) (path : string) :
  validate_background_object file_exists bg path = Ok () ↔ background_ok bg.
Proof.
  unfold validate_background_object, fail. split.
  - intros H. destruct bg as [| | | | |m]; try discriminate H.
    cbn [Py.is_dict negb] in H.
    ok_bind H u Hfields. ok_bind H image Himage. ok_bind H u' Hfile.
    ok_bind H raw_size Hsize. ok_bind H bad Hbad. ok_if H Ebad.
    ok_bind H position Hpos. ok_if H Hnb.
    apply getitem_ok in Himage as (? & [= <-] & Himage).
    destruct u'. apply validate_file_exists_ok in Hfile as (img & -> & Hfile).
    apply getitem_ok in Hsize as (? & [= <-] & Hsize).
    apply getitem_ok in Hpos as (? & [= <-] & Hpos).
    apply negb_false_iff in Hnb.
    assert (∃ sz, raw_size = JStr sz
              ∧ (sz ∈ valid_sizes
                 ∨ Re.run percentage_pattern
                     (String.list_ascii_of_string sz) = true))
      as (sz & -> & Hok).
    { destruct (existsb (λ s, Py.eq_str s raw_size) valid_sizes) eqn:Hex;
        cbn [negb] in Hbad.
      - apply existsb_eq_str in Hex as (sz & -> & Hin). eauto.
      - ok_bind Hbad matched Hm. inversion Hbad as [Hneg].
        apply negb_false_iff in Hneg. subst matched.
        destruct raw_size; try discriminate Hm. cbn in Hm. inversion Hm. eauto. }
    exists m, img, sz, position. done.
  - intros (m & image & size & position & -> & Himage & Hfile & Hsize & Hok
            & Hpos & Hnb).
    cbn [Py.is_dict negb background_fields].
    rewrite !(contains_dict _ _ _ Himage), !(contains_dict _ _ _ Hsize),
      !(contains_dict _ _ _ Hpos). cbn [bind negb].
    rewrite (proj2 (getitem_ok _ _ _)) by eauto. cbn [bind].
    rewrite (proj2 (validate_file_exists_ok _ _)) by eauto. cbn [bind].
    rewrite (proj2 (getitem_ok (JObj m) "size" _)) by eauto. cbn [bind].
    rewrite (proj2 (getitem_ok (JObj m) "position" _)) by eauto.
    assert ((if negb (existsb (λ s, Py.eq_str s (JStr size)) valid_sizes)
             then let* m0 := Re.matches percentage_pattern (JStr size) in
                  Ok (negb m0)
             else Ok false) = Ok false) as ->.
    { destruct (existsb (λ s, Py.eq_str s (JStr size)) valid_sizes) eqn:Hex;
        [reflexivity|]. cbn [negb].
      destruct Hok as [Hin | Hrun].
      - assert (existsb (λ s, Py.eq_str s (JStr size)) valid_sizes = true)
          by (apply existsb_eq_str; eauto). congruence.
      - cbn [Re.matches bind]. by rewrite Hrun. }
    cbn [bind]. by rewrite Hnb.
Qed.

(** *** The person *)

Lemma person_fields_ok (person : json) (fields : list string) :
  person_fields person fields = Ok ()
  ↔ Forall (λ f, ∃ v, Py.getitem person f = Ok v ∧ nonblank_str v = true) fields.
Proof.
  induction fields as [|f fields IH]; cbn [person_fields].
  - split; [constructor | reflexivity].
  - rewrite Forall_cons, <- IH. unfold fail. split.
    + intros H. ok_bind H present Hc. ok_if H Hpresent.
      ok_bind H v Hv. ok_if H Hnb. apply negb_false_iff in Hnb. eauto.
    + intros [(v & Hv & Hnb) Hrest].
      destruct (proj1 (getitem_ok _ _ _) Hv) as (m & -> & Hm).
      rewrite (contains_dict _ _ _ Hm). cbn [bind negb].
      rewrite Hv. cbn [bind]. rewrite Hnb. exact Hrest.
Qed.

(** The person of the data model: a dict whose five fields are strings that
    are not blank, with a profile image that exists. *)
Definition person_ok (data : json) : Prop :=
  ∃ d pm image,
    data = JObj d ∧ d !! "person" = Some (JObj pm)
    ∧ Forall (λ f, ∃ v, pm !! f = Some v ∧ nonblank_str v = true)
        required_person_fields
    ∧ pm !! "profile_image" = Some (JStr image) ∧ file_exists image = true.

Lemma person_checks_ok (data : json) :
  person_checks file_exists data = Ok () ↔ person_ok data.
Proof.
  unfold person_checks, fail. split.
  - intros H. ok_bind H present Hc. ok_if H Hpresent.
    ok_bind H person Hperson. ok_bind H u Hfields. ok_bind H img Himg.
    apply getitem_ok in Hperson as (d & -> & Hd).
    apply getitem_ok in Himg as (pm & -> & Hpm).
    apply validate_file_exists_ok in H as (image & -> & Hfile).
    destruct u. apply person_fields_ok in Hfields.
    exists d, pm, image. repeat split; try done.
    eapply Forall_impl; [exact Hfields|]. cbn beta.
    intros f (v & Hv & Hnb). apply getitem_ok in Hv as (? & [= <-] & Hv). eauto.
  - intros (d & pm & image & -> & Hd & Hfields & Himage & Hfile).
    rewrite (contains_dict _ _ _ Hd). cbn [bind negb].
    rewrite (proj2 (getitem_ok (JObj d) "person" _)) by eauto. cbn [bind].
    rewrite (proj2 (person_fields_ok _ _)).
    + cbn [bind]. rewrite (proj2 (getitem_ok (JObj pm) "profile_image" _)) by eauto.
      cbn [bind]. apply validate_file_exists_ok. eauto.
    + eapply Forall_impl; [exact Hfields|]. cbn beta.
      intros f (v & Hv & Hnb). exists v. split; [|exact Hnb].
      apply getitem_ok. eauto.
Qed.

(** *** A comment *)

(** The optional profile image: absent, or empty (any value that counts as
    false), or the name of a file that exists. *)
Definition image_ok (o : option json) : Prop :=
  match o with
  | None => True
  | Some v => Py.truthy v = false ∨ ∃ p, v = JStr p ∧ file_exists p = true
  end.

(** The optional height: absent, or a string the pattern matches. *)
Definition height_ok (o : option json) : Prop :=
  match o with
  | None => True
  | Some v =>
      ∃ s, v = JStr s
           ∧ Re.run height_pattern (String.list_ascii_of_string s) = true
  end.

(** A comment of the data model, and its author. *)
Definition comment_ok (c : json) (author : string) : Prop :=
  ∃ m message,
    c = JObj m
    ∧ m !! "author" = Some (JStr author) ∧ nonblank_str (JStr author) = true
    ∧ m !! "message" = Some message ∧ nonblank_str message = true
    ∧ image_ok (m !! "profile_image")
    ∧ height_ok (m !! "height").

Lemma comment_height_ok (i : nat) (m : gmap string json) :
  comment_height i (JObj m) = Ok () ↔ height_ok (m !! "height").
Proof.
  unfold comment_height, height_ok, fail.
  destruct (m !! "height") as [v|] eqn:Hv.
  - rewrite (contains_dict _ _ _ Hv). cbn [bind].
    rewrite (proj2 (getitem_ok (JObj m) "height" v)) by eauto. cbn [bind].
    split.
    + intros H. ok_bind H matched Hm. ok_if H Hneg.
      apply negb_false_iff in Hneg. subst matched.
      destruct v; try discriminate Hm. cbn in Hm. inversion Hm. eauto.
    + intros (s & -> & Hrun). cbn [Re.matches bind]. by rewrite Hrun.
  - rewrite (contains_dict_none _ _ Hv). done.
Qed.

Lemma comment_fields_ok (i : nat) (c : json) (author : string) :
  comment_fields file_exists i c = Ok author
  ↔ ∃ m message,
      c = JObj m
      ∧ m !! "author" = Some (JStr author) ∧ nonblank_str (JStr author) = true
      ∧ m !! "message" = Some message ∧ nonblank_str message = true
      ∧ image_ok (m !! "profile_image").
Proof.
  unfold comment_fields, fail. split.
  - intros H. ok_bind H has_author Ha. ok_if H Eauthor.
    ok_bind H has_message Hm. ok_if H Emessage.
    ok_bind H au Hau. ok_if H Hnba. apply negb_false_iff in Hnba.
    ok_bind H message Hmsg. ok_if H Hnbm. apply negb_false_iff in Hnbm.
    ok_bind H has_image Hi. ok_bind H u Himg. inversion H. subst author.
    apply getitem_ok in Hau as (m & -> & Hau).
    apply getitem_ok in Hmsg as (? & [= <-] & Hmsg).
    destruct (nonblank_str_is_str _ Hnba) as (a & ->). cbn [format].
    exists m, message. repeat split; try done.
    unfold image_ok. cbn in Hi. inversion Hi. subst has_image.
    destruct (m !! "profile_image") as [v|] eqn:Hv; [|done].
    rewrite bool_decide_eq_true_2 in Himg by eauto.
    rewrite (proj2 (getitem_ok (JObj m) "profile_image" v)) in Himg by eauto.
    cbn [bind] in Himg.
    destruct (Py.truthy v); [|by left]. right.
    destruct (validate_file_exists file_exists v _) as [[]|[]] eqn:Hf;
      try discriminate Himg.
    by apply validate_file_exists_ok in Hf.
  - intros (m & message & -> & Hau & Hnba & Hmsg & Hnbm & Himg).
    rewrite (contains_dict _ _ _ Hau), (contains_dict _ _ _ Hmsg).
    cbn [bind negb].
    rewrite (proj2 (getitem_ok (JObj m) "author" _)) by eauto. cbn [bind].
    rewrite Hnba. cbn [negb].
    rewrite (proj2 (getitem_ok (JObj m) "message" _)) by eauto. cbn [bind].
    rewrite Hnbm. cbn [negb format].
    unfold image_ok in Himg.
    destruct (m !! "profile_image") as [v|] eqn:Hv.
    + rewrite (contains_dict _ _ _ Hv). cbn [bind].
      rewrite (proj2 (getitem_ok (JObj m) "profile_image" v)) by eauto.
      cbn [bind].
      destruct (Py.truthy v) eqn:Ht; [|reflexivity].
      destruct Himg as [?|(p & -> & Hp)]; [congruence|].
      rewrite (proj2 (validate_file_exists_ok _ _)) by eauto. reflexivity.
    + rewrite (contains_dict_none _ _ Hv). reflexivity.
Qed.

Lemma check_comment_ok (i : nat) (c : json) (author : string) :
  check_comment file_exists i c = Ok author ↔ comment_ok c author.
Proof.
  unfold check_comment, comment_ok. split.
  - intros H. ok_bind H a Hf. ok_bind H u Hh. inversion H. subst a.
    apply comment_fields_ok in Hf as (m & message & -> & ?).
    destruct u. apply comment_height_ok in Hh.
    exists m, message. tauto.
  - intros (m & message & -> & Hau & Hnba & Hmsg & Hnbm & Himg & Hh).
    rewrite (proj2 (comment_fields_ok i (JObj m) author)) by eauto 10.
    cbn [bind]. by rewrite (proj2 (comment_height_ok i m)).
Qed.

Lemma check_comments_ok (comments : list json) : ∀ i acc authors,
  check_comments file_exists i comments acc = Ok authors
  ↔ ∃ new, authors = acc ++ new ∧ Forall2 comment_ok comments new.
Proof.
  induction comments as [|c comments IH]; intros i acc authors;
    cbn [check_comments].
  - split.
    + intros [= <-]. exists []. by rewrite app_nil_r.
    + intros (new & -> & Hnew). apply Forall2_nil_inv_l in Hnew. subst.
      by rewrite app_nil_r.
  - rewrite bind_ok. split.
    + intros (a & Hc & Hrest). apply check_comment_ok in Hc.
      apply IH in Hrest as (new & -> & Hnew).
      exists (a :: new). rewrite <- app_assoc. split; [reflexivity|].
      by constructor.
    + intros (new & -> & Hnew).
      apply Forall2_cons_inv_l in Hnew as (a & new' & Hc & Hnew & ->).
      exists a. split; [by apply check_comment_ok|].
      apply IH. exists new'. by rewrite <- app_assoc.
Qed.

(** *** The comments *)

Definition comments_ok (data : json) (comments : list json)
    (authors : list string) : Prop :=
  ∃ d, data = JObj d ∧ d !! "comments" = Some (JArr comments)
       ∧ comments ≠ [] ∧ Forall2 comment_ok comments authors.

Lemma comments_checks_ok (data : json) (comments : list json)
    (authors : list string) :
  comments_checks file_exists data = Ok (comments, authors)
  ↔ comments_ok data comments authors.
Proof.
  unfold comments_checks, comments_ok, fail. split.
  - intros H. ok_bind H present Hc. ok_if H Hpresent.
    ok_bind H cs Hcs. apply getitem_ok in Hcs as (d & -> & Hd).
    destruct cs as [| | | |l|]; try discriminate H.
    case_bool_decide as Hlen; [discriminate|].
    ok_bind H au Hau. inversion H. subst l au.
    apply check_comments_ok in Hau as (new & -> & Hnew).
    exists d. repeat split; try done. by destruct comments.
  - intros (d & -> & Hd & Hne & Hall).
    rewrite (contains_dict _ _ _ Hd). cbn [bind negb].
    rewrite (proj2 (getitem_ok (JObj d) "comments" _)) by eauto. cbn [bind].
    rewrite bool_decide_eq_false_2 by (by destruct comments).
    rewrite (proj2 (check_comments_ok comments 0 [] authors)) by eauto.
    reflexivity.
Qed.

(** *** The backgrounds *)

Lemma pages_list_checks_ok (bgs : list json) : ∀ i,
  pages_list_checks file_exists i bgs = Ok () ↔ Forall background_ok bgs.
Proof.
  induction bgs as [|bg bgs IH]; intros i; cbn [pages_list_checks].
  - split; [constructor | reflexivity].
  - rewrite bind_ok, Forall_cons, <- (IH (S i)). split.
    + intros ([] & Hbg & Hrest).
      by apply validate_background_object_ok in Hbg.
    + intros [Hbg Hrest]. exists (). split; [|exact Hrest].
      by apply validate_background_object_ok.
Qed.

(** The backgrounds of the data model: a dict with a cover that is a
    background object, whose [pages], when configured, is a background
    object, and whose [pages_list], when configured, is an array of
    background objects. *)
Definition backgrounds_ok (data : json) : Prop :=
  ∃ d b cover,
    data = JObj d ∧ d !! "backgrounds" = Some (JObj b)
    ∧ b !! "cover" = Some cover ∧ background_ok cover
    ∧ (∀ pg, b !! "pages" = Some pg → background_ok pg)
    ∧ (∀ pl, b !! "pages_list" = Some pl →
         ∃ bgs, pl = JArr bgs ∧ Forall background_ok bgs).

Lemma backgrounds_checks_ok (data : json) :
  backgrounds_checks file_exists data = Ok () ↔ backgrounds_ok data.
Proof.
  unfold backgrounds_checks, backgrounds_ok, fail. split.
  - intros H. ok_bind H present Hc. ok_if H Hpresent.
    ok_bind H bgs Hb. apply getitem_ok in Hb as (d & -> & Hd).
    ok_bind H has_cover Hhc. ok_if H Ecover.
    ok_bind H cover Hcover. apply getitem_ok in Hcover as (b & -> & Hcover).
    ok_bind H u Hcv. destruct u. apply validate_background_object_ok in Hcv.
    ok_bind H has_pages Hhp. ok_bind H u' Hpg. ok_bind H has_list Hhl.
    exists d, b, cover. repeat split; try done.
    + intros pg Hpages. rewrite (contains_dict _ _ _ Hpages) in Hhp.
      inversion Hhp. subst has_pages.
      rewrite (proj2 (getitem_ok (JObj b) "pages" pg)) in Hpg by eauto.
      cbn [bind] in Hpg. destruct u'.
      by apply validate_background_object_ok in Hpg.
    + intros pl Hpl. rewrite (contains_dict _ _ _ Hpl) in Hhl.
      inversion Hhl. subst has_list.
      rewrite (proj2 (getitem_ok (JObj b) "pages_list" pl)) in H by eauto.
      cbn [bind] in H. destruct pl as [| | | |l|]; try discriminate H.
      exists l. split; [reflexivity|]. by apply pages_list_checks_ok in H.
  - intros (d & b & cover & -> & Hd & Hcover & Hcv & Hpages & Hlist).
    rewrite (contains_dict _ _ _ Hd). cbn [bind negb].
    rewrite (proj2 (getitem_ok (JObj d) "backgrounds" _)) by eauto. cbn [bind].
    rewrite (contains_dict _ _ _ Hcover). cbn [bind negb].
    rewrite (proj2 (getitem_ok (JObj b) "cover" _)) by eauto. cbn [bind].
    rewrite (proj2 (validate_background_object_ok cover _)) by exact Hcv.
    cbn [bind].
    destruct (b !! "pages") as [pg|] eqn:Hpg.
    + rewrite (contains_dict _ _ _ Hpg). cbn [bind].
      rewrite (proj2 (getitem_ok (JObj b) "pages" pg)) by eauto. cbn [bind].
      rewrite (proj2 (validate_background_object_ok pg _)) by eauto.
      cbn [bind].
      destruct (b !! "pages_list") as [pl|] eqn:Hpl.
      * rewrite (contains_dict _ _ _ Hpl). cbn [bind].
        rewrite (proj2 (getitem_ok (JObj b) "pages_list" pl)) by eauto.
        cbn [bind]. destruct (Hlist pl eq_refl) as (l & -> & Hl).
        by apply pages_list_checks_ok.
      * by rewrite (contains_dict_none _ _ Hpl).
    + rewrite (contains_dict_none _ _ Hpg). cbn [bind].
      destruct (b !! "pages_list") as [pl|] eqn:Hpl.
      * rewrite (contains_dict _ _ _ Hpl). cbn [bind].
        rewrite (proj2 (getitem_ok (JObj b) "pages_list" pl)) by eauto.
        cbn [bind]. destruct (Hlist pl eq_refl) as (l & -> & Hl).
        by apply pages_list_checks_ok.
      * by rewrite (contains_dict_none _ _ Hpl).
Qed.

End Accepts.

(** *** The acceptance of each validation *)

(** [validate_background_object] accepts exactly the background objects of
    the data model, whatever the path it reports errors under. *)
Theorem validate_background_object_accepts (file_exists : string → bool)
    (bg : json) (path : string) :
  validate_background_object file_exists bg path = Ok ()
  ↔ ∃ m image size position,
      bg = JObj m
      ∧ m !! "image" = Some (JStr image) ∧ file_exists image = true
      ∧ m !! "size" = Some (JStr size)
      ∧ (size ∈ ["cover"; "contain"; "auto"]
         ∨ Re.run percentage_pattern (String.list_ascii_of_string size) = true)
      ∧ m !! "position" = Some position ∧ nonblank_str position = true.
Proof. apply validate_background_object_ok. Qed.

(** [validate_person] passes, and prints its line, exactly when the dataset
    is a dict whose person is a dict with the five fields, each a string
    that is not blank, and with a profile image that exists. *)
Theorem validate_person_accepts (file_exists : string → bool) (data : json) :
  validate_person file_exists data = ([PersonValid], Ok ())
  ↔ person_ok file_exists data.
Proof.
  rewrite <- person_checks_ok. unfold validate_person, report.
  destruct (person_checks file_exists data) as [[]|e]; split; congruence.
Qed.

(** [validate_backgrounds] passes, and prints its line, exactly when the
    dataset is a dict whose backgrounds are those of the data model. *)
Theorem validate_backgrounds_accepts (file_exists : string → bool) (data : json) :
  validate_backgrounds file_exists data = ([BackgroundsValid], Ok ())
  ↔ backgrounds_ok file_exists data.
Proof.
  rewrite <- backgrounds_checks_ok. unfold validate_backgrounds, report.
  destruct (backgrounds_checks file_exists data) as [[]|e]; split; congruence.
Qed.

(** [validate_comments] passes exactly when the dataset is a dict whose
    comments are an array that is not empty, of comments of the data model;
    it then reports their number. *)
Theorem validate_comments_accepts (file_exists : string → bool) (data : json) :
  (∃ out, validate_comments file_exists data = (out, Ok ()))
  ↔ ∃ comments authors,
      comments_ok file_exists data comments authors
      ∧ last (validate_comments file_exists data).1
        = Some (CommentsValid (length comments)).
Proof.
  unfold validate_comments, report. split.
  - intros (out & H).
    destruct (comments_checks file_exists data) as [[comments authors]|e] eqn:Hc;
      [|discriminate].
    exists comments, authors. split; [by apply comments_checks_ok|].
    cbn [fst]. by rewrite last_snoc.
  - intros (comments & authors & Hc & _).
    apply comments_checks_ok in Hc. rewrite Hc. eauto.
Qed.

Lemma exit_status_ok (file_exists : string → bool) (data : json) :
  exit_status file_exists data = 0%Z
  ↔ person_ok file_exists data
    ∧ backgrounds_ok file_exists data
    ∧ ∃ comments authors, comments_ok file_exists data comments authors.
Proof.
  rewrite <- person_checks_ok, <- backgrounds_checks_ok.
  unfold exit_status, validate, validate_person, validate_backgrounds,
    validate_comments, report, and_then.
  destruct (person_checks file_exists data) as [[]|]; cbn;
    [|split; [discriminate | by intros [? _]]].
  destruct (backgrounds_checks file_exists data) as [[]|]; cbn;
    [|split; [discriminate | by intros (_ & ? & _)]].
  destruct (comments_checks file_exists data) as [[comments authors]|] eqn:Hc; cbn.
  - split; [|done]. intros _. repeat split.
    exists comments, authors. by apply comments_checks_ok.
  - split; [discriminate|]. intros (_ & _ & comments & authors & H).
    apply comments_checks_ok in H. congruence.
Qed.

(** [main] exits with status 0 exactly on the datasets of the data model:
    the person, the backgrounds and the comments are all as the three
    validations require. *)
Theorem exit_status_zero (file_exists : string → bool) (data : json) :
  exit_status file_exists data = 0%Z
  ↔ person_ok file_exists data
    ∧ backgrounds_ok file_exists data
    ∧ ∃ comments authors, comments_ok file_exists data comments authors.
Proof. apply exit_status_ok. Qed.

(** The loop over the comments stops at the first comment that fails, with
    the error of that comment: the comments after it are not looked at, and
    nothing is printed. *)
Theorem validate_comments_first_error (file_exists : string → bool)
    (data : gmap string json) (before after : list json) (c : json)
    (authors : list string) (e : exn) :
  data !! "comments" = Some (JArr (before ++ c :: after)) →
  check_comments file_exists 0 before [] = Ok authors →
  check_comment file_exists (length before) c = Raise e →
  validate_comments file_exists (JObj data) = ([], Raise e).
Proof.
  intros Hdata Hrun Hc.
  unfold validate_comments, report, comments_checks.
  rewrite (contains_dict _ _ _ Hdata). cbn [bind negb].
  rewrite (proj2 (getitem_ok (JObj data) "comments" _)) by eauto. cbn [bind].
  rewrite bool_decide_eq_false_2 by (rewrite length_app; cbn; lia).
  rewrite (check_comments_app _ _ _ _ _ _ Hrun), Nat.add_0_l.
  cbn [check_comments]. rewrite Hc. reflexivity.
Qed.

Lemma validate_comments_first_error_witness :
  validate_comments all_files
    (JObj (sample_dataset [tribute "Ann" 50; comment [("author", JStr "Bob")]]))
  = ([], Raise (ValidationError "Missing 'message' in comments[1]")).
Proof.
  apply (validate_comments_first_error all_files _ [tribute "Ann" 50] []
           (comment [("author", JStr "Bob")]) ["Ann"]).
  - vm_compute. reflexivity.
  - vm_compute. reflexivity.
  - vm_compute. reflexivity.
Defined.

(** *** The optional profile image *)

(** For a comment with a good author and message and a profile image that
    is a string: the empty string is not looked up; a file that exists
    passes; a file that does not exist is reported under the author's name,
    with the path of the field. *)
Theorem profile_image_check (file_exists : string → bool) (i : nat)
    (fields : gmap string json) (author image : string) (message : json) :
  fields !! "author" = Some (JStr author) →
  nonblank_str (JStr author) = true →
  fields !! "message" = Some message →
  nonblank_str message = true →
  fields !! "profile_image" = Some (JStr image) →
  comment_fields file_exists i (JObj fields)
  = if String.eqb image "" || file_exists image then Ok author
    else Raise (ValidationError
                  ("Invalid profile_image for " +:+ author +:+ ": "
                   +:+ ("comments[" +:+ pretty i +:+ "].profile_image")
                   +:+ " not found: " +:+ image)).
Proof.
  intros Hau Hnba Hmsg Hnbm Himg. unfold comment_fields.
  rewrite (contains_dict _ _ _ Hau), (contains_dict _ _ _ Hmsg).
  cbn [bind negb].
  rewrite (proj2 (getitem_ok (JObj fields) "author" _)) by eauto. cbn [bind].
  rewrite Hnba. cbn [negb].
  rewrite (proj2 (getitem_ok (JObj fields) "message" _)) by eauto. cbn [bind].
  rewrite Hnbm. cbn [negb].
  rewrite (contains_dict _ _ _ Himg). cbn [bind].
  rewrite (proj2 (getitem_ok (JObj fields) "profile_image" _)) by eauto.
  cbn [bind Py.truthy format validate_file_exists].
  destruct (String.eqb image ""); cbn [negb orb]; [reflexivity|].
  destruct (file_exists image); reflexivity.
Qed.

Definition no_files : string → bool := λ _, false.

Lemma profile_image_check_witness :
  comment_fields no_files 3
    (comment [("author", JStr "Ann"); ("message", JStr "Hello");
              ("profile_image", JStr "ann.jpg")])
  = if String.eqb "ann.jpg" "" || no_files "ann.jpg" then Ok "Ann"
    else Raise (ValidationError
                  ("Invalid profile_image for " +:+ "Ann" +:+ ": "
                   +:+ ("comments[" +:+ pretty 3 +:+ "].profile_image")
                   +:+ " not found: " +:+ "ann.jpg")).
Proof.
  apply (profile_image_check no_files 3
           (list_to_map [("author", JStr "Ann"); ("message", JStr "Hello");
                         ("profile_image", JStr "ann.jpg")])
           "Ann" "ann.jpg" (JStr "Hello")).
  - vm_compute. reflexivity.
  - vm_compute. reflexivity.
  - vm_compute. reflexivity.
  - vm_compute. reflexivity.
  - vm_compute. reflexivity.
Defined.

(** *** The warning *)

Lemma count_cons (a b : string) (l : list string) :
  count a (b :: l) = (if decide (b = a) then S (count a l) else count a l).
Proof. unfold count. rewrite filter_cons. by case_decide. Qed.

Lemma count_zero (a : string) (l : list string) : a ∉ l → count a l = 0.
Proof.
  intros Hnot. unfold count.
  destruct (filter (λ b, b = a) l) as [|b t] eqn:Hf; [reflexivity|].
  assert (b ∈ filter (λ b, b = a) l) as Hb by (rewrite Hf; left).
  apply list_elem_of_filter in Hb as [-> Hb]. contradiction.
Qed.

Lemma count_pos (a : string) (l : list string) : a ∈ l → (0 < count a l)%nat.
Proof.
  intros Hin. unfold count.
  assert (a ∈ filter (λ b, b = a) l) as Ha by (by apply list_elem_of_filter).
  destruct (filter (λ b, b = a) l); [by apply elem_of_nil in Ha | cbn; lia].
Qed.

Lemma NoDup_count (l : list string) :
  NoDup l ↔ ∀ a, (count a l ≤ 1)%nat.
Proof.
  induction l as [|b l IH].
  - split; [intros _ a; cbn; lia | constructor].
  - rewrite NoDup_cons, IH. split.
    + intros [Hnot Hall] a. rewrite count_cons. case_decide as Hba.
      * subst. rewrite (count_zero _ _ Hnot). lia.
      * apply Hall.
    + intros Hall. split.
      * intros Hin. apply count_pos in Hin.
        specialize (Hall b). rewrite count_cons in Hall.
        rewrite decide_True in Hall by reflexivity. lia.
      * intros a. specialize (Hall a). rewrite count_cons in Hall.
        case_decide; lia.
Qed.

Lemma duplicates_nil (authors : list string) :
  duplicates authors = [] ↔ NoDup authors.
Proof.
  rewrite NoDup_count. split.
  - intros Hnil a. destruct (decide (1 < count a authors)%nat) as [Hlt|]; [|lia].
    apply elem_of_duplicates in Hlt. rewrite Hnil in Hlt.
    by apply elem_of_nil in Hlt.
  - intros Hall. destruct (duplicates authors) as [|a t] eqn:Hd; [reflexivity|].
    assert (a ∈ duplicates authors) as Ha by (rewrite Hd; left).
    apply elem_of_duplicates in Ha. specialize (Hall a). lia.
Qed.

(** When the comments pass, the warning is printed exactly when two comments
    have the same author, and it names each such author once. *)
Theorem duplicate_warning_iff (file_exists : string → bool) (data : json)
    (comments : list json) (authors : list string) :
  comments_checks file_exists data = Ok (comments, authors) →
  (validate_comments file_exists data
   = ([CommentsValid (length comments)], Ok ()) ↔ NoDup authors)
  ∧ (validate_comments file_exists data
     = ([DuplicateAuthors (duplicates authors); CommentsValid (length comments)],
        Ok ()) ↔ ¬ NoDup authors)
  ∧ NoDup (duplicates authors).
Proof.
  intros Hc. unfold validate_comments, report. rewrite Hc.
  rewrite <- duplicates_nil. split; [|split].
  - case_bool_decide as Hd; cbn; split; try done; intros [=].
  - case_bool_decide as Hd; cbn; split; try done; intros [=].
  - unfold duplicates. apply NoDup_filter, NoDup_remove_dups.
Qed.

Lemma duplicate_warning_iff_witness :
  (validate_comments all_files (JObj (sample_dataset sample_comments))
   = ([CommentsValid (length sample_comments)], Ok ())
   ↔ NoDup ["Ann"; "Bob"; "Cy"; "Ann"])
  ∧ (validate_comments all_files (JObj (sample_dataset sample_comments))
     = ([DuplicateAuthors (duplicates ["Ann"; "Bob"; "Cy"; "Ann"]);
         CommentsValid (length sample_comments)], Ok ())
     ↔ ¬ NoDup ["Ann"; "Bob"; "Cy"; "Ann"])
  ∧ NoDup (duplicates ["Ann"; "Bob"; "Cy"; "Ann"]).
Proof.
  apply (duplicate_warning_iff all_files (JObj (sample_dataset sample_comments))
           sample_comments ["Ann"; "Bob"; "Cy"; "Ann"]).
  vm_compute. reflexivity.
Defined.

(** ** The errors of the validator *)

(** A run that ends normally, with a [ValidationError] or with a
    [TypeError]. *)
Definition foreseen {A} (r : result A) : Prop :=
  match r with
  | Raise (KeyError _) | Raise AttributeError => False
  | _ => True
  end.






Lemma foreseen_getitem_again key x v :
  Py.getitem x key = Ok v → foreseen (Py.getitem x key).
Proof. by intros ->. Qed.


Section Foreseen.

Variable file_exists : string → bool.












End Foreseen.



(** ** Where the reasons point *)

(** The reason [reason] names the path [path]. *)
Definition mentions (path reason : string) : Prop :=
  ∃ pre post, reason = pre +:+ path +:+ post.

Lemma str_app_assoc (a b c : string) : (a +:+ b) +:+ c = a +:+ (b +:+ c).
Proof.
  induction a as [|x a IH]; [reflexivity|].
  change (String x ((a +:+ b) +:+ c) = String x (a +:+ (b +:+ c))).
  by rewrite IH.
Qed.

Lemma str_app_nil_r (a : string) : a +:+ "" = a.
Proof.
  induction a as [|x a IH]; [reflexivity|].
  change (String x (a +:+ "") = String x a). by rewrite IH.
Qed.

(** Every [ValidationError] of the run names the path. *)
Definition located {A} (path : string) (r : result A) : Prop :=
  ∀ reason, r = Raise (ValidationError reason) → mentions path reason.

Lemma located_bind {A B} path (r : result A) (k : A → result B) :
  located path r → (∀ a, r = Ok a → located path (k a)) →
  located path (bind r k).
Proof.
  destruct r as [a|e]; cbn [bind]; intros H1 H2; [by apply H2|].
  intros reason [= ->]. by apply H1.
Qed.

Lemma located_ok {A} path (a : A) : located path (Ok a).
Proof. intros reason [=]. Qed.

Lemma located_fail {A} path reason :
  mentions path reason → located path (@fail A reason).
Proof. intros H reason' [= <-]. exact H. Qed.

Lemma located_contains path key x : located path (Py.contains key x).
Proof. by destruct x; intros reason [=]. Qed.

Lemma located_getitem path key x : located path (Py.getitem x key).
Proof.
  destruct x as [| | | | |m]; try by intros reason [=].
  cbn. by destruct (m !! key); intros reason [=].
Qed.

Lemma located_matches path p x : located path (Re.matches p x).
Proof. by destruct x; intros reason [=]. Qed.

Lemma located_file file_exists path x suffix :
  located path (validate_file_exists file_exists x (path +:+ suffix)).
Proof.
  destruct x as [| | |p| |]; try by intros reason [=].
  cbn [validate_file_exists]. destruct (file_exists p); [apply located_ok|].
  apply located_fail. exists "", (suffix +:+ " not found: " +:+ p).
  by rewrite str_app_assoc.
Qed.

Ltac mention pre post :=
  apply located_fail; exists pre, post;
  rewrite ?str_app_nil_r, ?str_app_assoc; reflexivity.

Section Located.

Variable file_exists : string → bool.

Lemma located_background_fields bg path fields :
  located path (background_fields bg path fields).
Proof.
  induction fields as [|f fields IH]; cbn [background_fields];
    [apply located_ok|].
  apply located_bind; [apply located_contains|].
  intros [] _; cbn [negb]; [exact IH|].
  mention "Missing required field in " (": '" +:+ f +:+ "'").
Qed.

Lemma located_background_object bg path :
  located path (validate_background_object file_exists bg path).
Proof.
  unfold validate_background_object.
  destruct (negb (Py.is_dict bg)); [mention "" " must be an object"|].
  apply located_bind; [apply located_background_fields|]. intros _ _.
  apply located_bind; [apply located_getitem|]. intros image _.
  apply located_bind; [apply located_file|]. intros _ _.
  apply located_bind; [apply located_getitem|]. intros raw_size _.
  apply located_bind.
  { destruct (negb _); [|apply located_ok].
    apply located_bind; [apply located_matches|]. intros; apply located_ok. }
  intros [] _.
  - mention ""
      (".size must be 'cover', 'contain', 'auto', or 'XX% XX%' format. Got: '"
       +:+ format raw_size +:+ "'").
  - apply located_bind; [apply located_getitem|]. intros position _.
    destruct (negb _); [|apply located_ok].
    mention "" ".position must be a non-empty string".
Qed.

Lemma located_comment_fields i c :
  located ("comments[" +:+ pretty i +:+ "]") (comment_fields file_exists i c).
Proof.
  unfold comment_fields.
  apply located_bind; [apply located_contains|]. intros [] _; cbn [negb].
  2: { mention "Missing 'author' in " "". }
  apply located_bind; [apply located_contains|]. intros [] _; cbn [negb].
  2: { mention "Missing 'message' in " "". }
  apply located_bind; [apply located_getitem|]. intros author _.
  destruct (negb (nonblank_str author)).
  { mention "" ".author must be a non-empty string". }
  apply located_bind; [apply located_getitem|]. intros message _.
  destruct (negb (nonblank_str message)).
  { mention "" ".message must be a non-empty string". }
  apply located_bind; [apply located_contains|]. intros has_image _.
  apply located_bind; [|intros; apply located_ok].
  destruct has_image; [|apply located_ok].
  apply located_bind; [apply located_getitem|]. intros img _.
  destruct (Py.truthy img); [|apply located_ok].
  destruct img as [| | |p| |]; try by intros reason [=].
  cbn [validate_file_exists]. destruct (file_exists p); [apply located_ok|].
  unfold fail at 1.
  mention ("Invalid profile_image for " +:+ format author +:+ ": ")
    (".profile_image" +:+ " not found: " +:+ p).
Qed.

Lemma located_comment_height i c :
  located ("comments[" +:+ pretty i +:+ "]") (comment_height i c).
Proof.
  unfold comment_height.
  apply located_bind; [apply located_contains|]. intros [] _;
    [|apply located_ok].
  apply located_bind; [apply located_getitem|]. intros height _.
  apply located_bind; [apply located_matches|]. intros [] _; cbn [negb];
    [apply located_ok|].
  mention "" (".height must be in format 'XXXpx'. Got: '"
              +:+ format height +:+ "'").
Qed.

End Located.

(** Every [ValidationError] that the check of a comment raises names the
    comment by its index in the array. *)
Theorem comment_errors_located (file_exists : string → bool) (i : nat)
    (c : json) (reason : string) :
  check_comment file_exists i c = Raise (ValidationError reason) →
  ∃ pre post, reason = pre +:+ ("comments[" +:+ pretty i +:+ "]") +:+ post.
Proof.
  apply (located_bind ("comments[" +:+ pretty i +:+ "]"));
    [apply located_comment_fields|]. intros author _.
  apply located_bind; [apply located_comment_height|].
  intros; apply located_ok.
Qed.

Lemma comment_errors_located_witness :
  ∃ pre post,
    "comments[7].height must be in format 'XXXpx'. Got: '120'"
    = pre +:+ ("comments[" +:+ pretty 7 +:+ "]") +:+ post.
Proof.
  apply (comment_errors_located all_files 7 (with_height (JStr "120"))).
  vm_compute. reflexivity.
Defined.

(** Every [ValidationError] that the check of a background object raises
    names the path the check was given. *)
Theorem background_errors_located (file_exists : string → bool) (bg : json)
    (path reason : string) :
  validate_background_object file_exists bg path
  = Raise (ValidationError reason) →
  ∃ pre post, reason = pre +:+ path +:+ post.
Proof. apply located_background_object. Qed.

Lemma background_errors_located_witness :
  ∃ pre post,
    "Missing required field in backgrounds.pages: 'image'"
    = pre +:+ "backgrounds.pages" +:+ post.
Proof.
  apply (background_errors_located all_files (comment []) "backgrounds.pages").
  vm_compute. reflexivity.
Defined.

(** ** What the patterns accept *)

Lemma run_end (s : list ascii) :
  Re.run [] s = true ↔ s = [] ∨ s = ["010"%char].
Proof.
  cbn [Re.run]. destruct s as [|c [|d s]]; cbn [Re.at_end].
  - split; [by left | done].
  - rewrite Ascii.eqb_eq. split; [intros ->; by right|].
    intros [?|[= ->]]; [discriminate | reflexivity].
  - split; [discriminate | by intros [?|?]].
Qed.

Lemma run_one (cls : ascii → bool) (rest : list Re.atom) (s : list ascii) :
  Re.run (Re.One cls :: rest) s = true
  ↔ ∃ c suf, s = c :: suf ∧ cls c = true ∧ Re.run rest suf = true.
Proof.
  destruct s as [|c s]; cbn [Re.run].
  - split; [discriminate | by intros (? & ? & ? & _)].
  - rewrite andb_true_iff. split.
    + intros [? ?]. eauto.
    + by intros (? & ? & [= <- <-] & ? & ?).
Qed.

Lemma run_many (cls : ascii → bool) (rest : list Re.atom) (s : list ascii) :
  Re.run (Re.Many cls :: rest) s = true
  ↔ ∃ pre suf, s = pre ++ suf ∧ pre ≠ [] ∧ forallb cls pre = true
               ∧ Re.run rest suf = true.
Proof.
  split.
  - induction s as [|c s IH]; [rewrite run_many_nil; discriminate|].
    rewrite run_many_cons. intros H.
    apply andb_prop in H as [Hc H]. apply orb_prop in H as [H|H].
    + destruct (IH H) as (pre & suf & -> & _ & Hpre & Hsuf).
      exists (c :: pre), suf. repeat split; try done.
      cbn. by rewrite Hc, Hpre.
    + exists [c], s. repeat split; try done. cbn. by rewrite Hc.
  - intros (pre & suf & -> & Hne & Hpre & Hsuf).
    induction pre as [|c pre IH]; [contradiction|].
    cbn [forallb] in Hpre. apply andb_prop in Hpre as [Hc Hpre].
    change ((c :: pre) ++ suf) with (c :: (pre ++ suf)).
    rewrite run_many_cons, Hc. cbn [andb].
    destruct pre as [|d pre].
    + cbn [app]. rewrite Hsuf. apply orb_true_r.
    + rewrite IH by done. reflexivity.
Qed.

(** [^\d+%\s+\d+%$] accepts one or more digits, a percent sign, one or more
    white spaces, one or more digits and a percent sign, and nothing else
    but a newline that ends the string. *)
Theorem percentage_pattern_accepts (s : list ascii) :
  Re.run percentage_pattern s = true
  ↔ ∃ width gap height tail,
      s = width ++ "%"%char :: gap ++ height ++ "%"%char :: tail
      ∧ width ≠ [] ∧ forallb is_digit width = true
      ∧ gap ≠ [] ∧ forallb is_space gap = true
      ∧ height ≠ [] ∧ forallb is_digit height = true
      ∧ (tail = [] ∨ tail = ["010"%char]).
Proof.
  unfold percentage_pattern. split.
  - intros H.
    apply run_many in H as (width & s1 & -> & Hw & Hwd & H).
    apply run_one in H as (c1 & s2 & -> & Hc1 & H).
    apply lit_true in Hc1. subst c1.
    apply run_many in H as (gap & s3 & -> & Hg & Hgs & H).
    apply run_many in H as (height & s4 & -> & Hh & Hhd & H).
    apply run_one in H as (c2 & tail & -> & Hc2 & H).
    apply lit_true in Hc2. subst c2.
    apply run_end in H.
    exists width, gap, height, tail. done.
  - intros (width & gap & height & tail & -> & Hw & Hwd & Hg & Hgs & Hh & Hhd
            & Htail).
    apply run_many. exists width, ("%"%char :: gap ++ height ++ "%"%char :: tail).
    repeat split; try done.
    apply run_one. eexists _, _. split; [reflexivity|].
    split; [by apply lit_true|].
    apply run_many. exists gap, (height ++ "%"%char :: tail).
    repeat split; try done.
    apply run_many. exists height, ("%"%char :: tail).
    repeat split; try done.
    apply run_one. eexists _, _. split; [reflexivity|].
    split; [by apply lit_true|]. by apply run_end.
Qed.

(** ** More on the background resolver *)

(** Resolving a resolved background changes nothing, whatever the defaults
    of the second call: a resolved background has all three fields. *)
Theorem parse_background_idempotent (bg size1 position1 size2 position2 : json) :
  parse_background (JObj (parse_background bg size1 position1)) size2 position2
  = parse_background bg size1 position1.
Proof.
  destruct bg; cbn [parse_background]; by simplify_map_eq.
Qed.

(** A plain string is short for the object that has it as its image and
    nothing else. *)
Theorem parse_background_string_shorthand (image : string)
    (size position : json) :
  parse_background (JStr image) size position
  = parse_background (JObj {[ "image" := JStr image ]}) size position.
Proof. cbn [parse_background]. by simplify_map_eq. Qed.

(** *** The list of page backgrounds *)

Definition resolved (bg : json) : gmap string json :=
  parse_background bg default_size default_position.

Lemma parse_all_spec (raws : list json) : ∀ h : heap,
  parse_all raws h = (seq (length h) (length raws), h ++ (resolved <$> raws)).
Proof.
  induction raws as [|bg raws IH]; intros h; cbn [parse_all new_dict].
  - cbn. by rewrite app_nil_r.
  - rewrite IH, length_app. cbn [length fmap list_fmap seq].
    rewrite Nat.add_1_r, <- app_assoc. reflexivity.
Qed.

(** The run of the lines of [render_pdf] that resolve the backgrounds. *)
Lemma render_backgrounds_run (data backgrounds : gmap string json)
    (raws : list json) (h : heap) :
  backgrounds_of data = Some backgrounds →
  Py.iter (default (JArr []) (backgrounds !! "pages_list")) = Ok raws →
  render_backgrounds (JObj data) h
  = Ok ({| background_cover := length h;
           background_pages := S (length h);
           background_pages_list := seq (S (S (length h))) (length raws) |},
        h ++ [resolved (raw_cover data backgrounds);
              resolved (raw_pages backgrounds)] ++ (resolved <$> raws)).
Proof.
  intros Hb Hiter.
  assert (Py.get (JObj data) "backgrounds" (JObj ∅) = Ok (JObj backgrounds)) as Hget.
  { unfold backgrounds_of in Hb. cbn.
    destruct (data !! "backgrounds") as [[]|]; cbn; congruence. }
  unfold render_backgrounds. rewrite Hget.
  cbn [bind Py.get new_dict]. rewrite Hiter. cbn [bind].
  rewrite parse_all_spec, !length_app. cbn [length].
  rewrite !Nat.add_1_r, <- !app_assoc. reflexivity.
Qed.

(** Every entry of [pages_list] is resolved on its own, in order, into a new
    dict: the list of the context is as long as the raw list, its dicts are
    distinct from one another and from those of the cover and of the pages,
    and the dicts that existed before are as they were. *)
Theorem render_backgrounds_pages_list (data backgrounds : gmap string json)
    (raws : list json) (h : heap) :
  backgrounds_of data = Some backgrounds →
  Py.iter (default (JArr []) (backgrounds !! "pages_list")) = Ok raws →
  ∃ ctx h',
    render_backgrounds (JObj data) h = Ok (ctx, h')
    ∧ length (background_pages_list ctx) = length raws
    ∧ (∀ i raw, raws !! i = Some raw →
         ∃ l, background_pages_list ctx !! i = Some l
              ∧ h' !! l = Some (parse_background raw default_size default_position))
    ∧ NoDup (background_cover ctx :: background_pages ctx
             :: background_pages_list ctx)
    ∧ (∀ l d, h !! l = Some d → h' !! l = Some d).
Proof.
  intros Hb Hiter. eexists _, _.
  split; [by apply render_backgrounds_run|].
  cbn [background_cover background_pages background_pages_list].
  split; [by rewrite length_seq|]. split; [|split].
  - intros i raw Hraw. exists (S (S (length h)) + i).
    split; [apply lookup_seq; split; [reflexivity | by eapply lookup_lt_Some]|].
    rewrite lookup_app_r by lia.
    replace (S (S (length h)) + i - length h) with (S (S i)) by lia.
    change ((resolved <$> raws) !! i = Some (resolved raw)).
    by rewrite list_lookup_fmap, Hraw.
  - repeat apply NoDup_cons_2.
    + rewrite elem_of_cons, elem_of_seq. lia.
    + rewrite elem_of_seq. lia.
    + apply NoDup_seq.
  - intros l d Hl. by apply lookup_app_l_Some.
Qed.

Definition sample_with_pages_list : gmap string json :=
  list_to_map
    [("comments", JArr sample_comments);
     ("backgrounds",
      comment [("cover", sample_cover);
               ("pages_list", JArr [JStr "one.jpg"; sample_cover; JNull])])].

Lemma render_backgrounds_pages_list_witness :
  ∃ ctx h',
    render_backgrounds (JObj sample_with_pages_list) [] = Ok (ctx, h')
    ∧ length (background_pages_list ctx)
      = length [JStr "one.jpg"; sample_cover; JNull]
    ∧ (∀ i raw, [JStr "one.jpg"; sample_cover; JNull] !! i = Some raw →
         ∃ l, background_pages_list ctx !! i = Some l
              ∧ h' !! l = Some (parse_background raw default_size default_position))
    ∧ NoDup (background_cover ctx :: background_pages ctx
             :: background_pages_list ctx)
    ∧ (∀ l d, ([] : heap) !! l = Some d → h' !! l = Some d).
Proof.
  apply (render_backgrounds_pages_list sample_with_pages_list
           (list_to_map [("cover", sample_cover);
                         ("pages_list",
                          JArr [JStr "one.jpg"; sample_cover; JNull])])).
  - vm_compute. reflexivity.
  - vm_compute. reflexivity.
Defined.

Lemma render_backgrounds_iter_error (data backgrounds : gmap string json)
    (e : exn) (h : heap) :
  backgrounds_of data = Some backgrounds →
  Py.iter (default (JArr []) (backgrounds !! "pages_list")) = Raise e →
  render_backgrounds (JObj data) h = Raise e.
Proof.
  intros Hb Hiter.
  assert (Py.get (JObj data) "backgrounds" (JObj ∅) = Ok (JObj backgrounds)) as Hget.
  { unfold backgrounds_of in Hb. cbn.
    destruct (data !! "backgrounds") as [[]|]; cbn; congruence. }
  unfold render_backgrounds. rewrite Hget.
  cbn [bind Py.get new_dict]. rewrite Hiter. reflexivity.
Qed.

Lemma render_backgrounds_not_dict (data : gmap string json) (h : heap) :
  backgrounds_of data = None →
  render_backgrounds (JObj data) h = Raise AttributeError.
Proof.
  unfold backgrounds_of, render_backgrounds. cbn [Py.get bind].
  destruct (data !! "backgrounds") as [[]|]; try discriminate; reflexivity.
Qed.

(** The backgrounds are resolved without an error exactly when the dataset
    is a dict, its [backgrounds], when configured, is a dict, and the
    [pages_list] of that, when configured, can be iterated.  The only errors
    are [AttributeError] and [TypeError]. *)
Theorem render_backgrounds_succeeds (data : json) (h : heap) :
  ((∃ r, render_backgrounds data h = Ok r)
   ↔ ∃ d b, data = JObj d ∧ backgrounds_of d = Some b ∧ pages_list_ok b = true)
  ∧ (∀ e, render_backgrounds data h = Raise e →
          e = AttributeError ∨ e = TypeError).
Proof.
  assert (∀ x e, Py.iter x = Raise e → e = TypeError) as Hiter_err.
  { intros [] e; cbn; congruence. }
  destruct data as [| | | | |d];
    try (split; [split; [by intros [? ?] | by intros (? & ? & ? & _)]
                | intros e [= <-]; by left]).
  destruct (backgrounds_of d) as [b|] eqn:Hb.
  - destruct (Py.iter (default (JArr []) (b !! "pages_list"))) as [raws|e'] eqn:Hi.
    + rewrite (render_backgrounds_run d b raws h Hb Hi).
      split; [|discriminate]. split; [|eauto]. intros _.
      exists d, b. unfold pages_list_ok. by rewrite Hi.
    + rewrite (render_backgrounds_iter_error d b e' h Hb Hi). split.
      * split; [by intros [? ?]|].
        intros (? & b' & [= <-] & Hb' & Hok). unfold pages_list_ok in Hok.
        rewrite Hb in Hb'. inversion Hb'. subst b'. by rewrite Hi in Hok.
      * intros e [= <-]. right. by eapply Hiter_err.
  - rewrite (render_backgrounds_not_dict d h Hb). split.
    + split; [by intros [? ?]|]. intros (? & b' & [= <-] & Hb' & _). congruence.
    + intros e [= <-]. by left.
Qed.

(** ** Rendering a dataset that the validator accepts *)

Lemma comment_ok_measurable file_exists c author :
  comment_ok file_exists c author → measurable c = true.
Proof.
  intros (m & message & -> & _ & _ & Hmsg & Hnb & _).
  destruct (nonblank_str_is_str _ Hnb) as (s & ->).
  unfold measurable, comment_weight. cbn. by rewrite Hmsg.
Qed.

Lemma comment_ok_author file_exists c author :
  comment_ok file_exists c author → Py.getitem c "author" = Ok (JStr author).
Proof. intros (m & message & -> & Hau & _). apply getitem_ok. eauto. Qed.

Definition has_author (c : json) : Prop :=
  ∃ author, Py.getitem c "author" = Ok (JStr author).

Lemma join_strs (sep : string) (xs : list json) :
  Forall (λ x, Py.is_str x = true) xs → ∃ s, join sep xs = Ok s.
Proof.
  induction 1 as [|x xs Hx _ IH]; [by eexists|].
  destruct x; try discriminate Hx. cbn [join].
  destruct IH as [t Ht]. destruct xs; [by eexists|].
  rewrite Ht. by eexists.
Qed.

Lemma page_authors_strs (page : list json) :
  Forall has_author page →
  ∃ authors, page_authors page = Ok authors
             ∧ Forall (λ x, Py.is_str x = true) authors.
Proof.
  induction 1 as [|c page [a Ha] _ (authors & Hrun & Hstrs)]; cbn [page_authors].
  - eexists. split; [reflexivity | constructor].
  - rewrite Ha, Hrun. eexists. split; [reflexivity|]. by constructor.
Qed.

Lemma page_lines_ok (pgs : list (list json)) : ∀ i,
  Forall (Forall has_author) pgs →
  ∃ out, page_lines i pgs = (out, Ok ()) ∧ length out = length pgs.
Proof.
  induction pgs as [|page pgs IH]; intros i Hall; cbn [page_lines].
  - by exists [].
  - apply Forall_cons in Hall as [Hpage Hall].
    destruct (page_authors_strs page Hpage) as (authors & -> & Hstrs).
    cbn [bind]. destruct (join_strs ", " authors Hstrs) as [line ->].
    destruct (IH (S i) Hall) as (out & -> & Hlen).
    eexists. split; [reflexivity|]. cbn. by rewrite Hlen.
Qed.

Lemma backgrounds_ok_resolvable file_exists (d : gmap string json) :
  backgrounds_ok file_exists (JObj d) →
  ∃ b, backgrounds_of d = Some b ∧ pages_list_ok b = true.
Proof.
  intros (? & b & cover & [= <-] & Hd & _ & _ & _ & Hlist).
  exists b. unfold backgrounds_of, pages_list_ok. rewrite Hd.
  split; [reflexivity|].
  destruct (b !! "pages_list") as [pl|] eqn:Hpl; [|reflexivity].
  by destruct (Hlist pl eq_refl) as (bgs & -> & _).
Qed.

Lemma comments_ok_each file_exists comments authors :
  Forall2 (comment_ok file_exists) comments authors →
  forallb measurable comments = true ∧ Forall has_author comments.
Proof.
  induction 1 as [|c a comments authors Hc _ [IHm IHa]]; [by split|].
  split.
  - cbn. by rewrite (comment_ok_measurable _ _ _ Hc), IHm.
  - constructor; [|exact IHa]. exists a. by eapply comment_ok_author.
Qed.

Lemma Forall_pages (P : json → Prop) (pgs : list (list json)) :
  Forall P (concat pgs) → Forall (Forall P) pgs.
Proof.
  induction pgs as [|p pgs IH]; cbn; [constructor|].
  rewrite Forall_app. intros [Hp Hrest]. constructor; auto.
Qed.

(** A dataset that the validator accepts is rendered without an error, in
    any store: the comments come out in pages of one or two comments whose
    concatenation is the array of the dataset, one line is printed a page
    after the line of the count, and the person of the context is the
    person of the dataset. *)
Theorem validated_dataset_renders (file_exists : string → bool) (data : json)
    (h : heap) :
  exit_status file_exists data = 0%Z →
  ∃ out ctx h',
    render_pdf data h = (Generated (length (ctx_pages ctx)) :: out, Ok (ctx, h'))
    ∧ length out = length (ctx_pages ctx)
    ∧ Py.getitem data "comments" = Ok (JArr (concat (ctx_pages ctx)))
    ∧ Forall (λ p, (1 ≤ length p ≤ 2)%nat) (ctx_pages ctx)
    ∧ Py.getitem data "person" = Ok (ctx_person ctx).
Proof.
  intros Hexit. apply exit_status_ok in Hexit
    as (Hperson & Hbgs & comments & authors & d & -> & Hd & Hne & Hall).
  destruct Hperson as (? & pm & image & [= <-] & Hp & _).
  destruct (backgrounds_ok_resolvable _ _ Hbgs) as (b & Hb & Hlist).
  unfold pages_list_ok in Hlist.
  destruct (Py.iter (default (JArr []) (b !! "pages_list"))) as [raws|] eqn:Hi;
    [|discriminate].
  destruct (comments_ok_each _ _ _ Hall) as [Hmeas Hauthors].
  destruct (paginate_comments_spec 2400 2 comments Hmeas)
    as (pgs & Hrun & Hcat & _ & Hsize).
  rewrite <- Hcat in Hauthors. apply Forall_pages in Hauthors.
  destruct (page_lines_ok pgs 1 Hauthors) as (out & Hlines & Hlen).
  eexists out, {| ctx_pages := pgs |}, _.
  cbn [ctx_pages ctx_person]. split; [|split; [|split; [|split]]].
  - unfold render_pdf.
    rewrite (proj2 (getitem_ok (JObj d) "comments" (JArr comments))) by eauto.
    cbn [bind Py.iter]. rewrite Hrun, Hlines. cbn [bind].
    rewrite (render_backgrounds_run d b raws h Hb Hi). cbn [bind].
    rewrite (proj2 (getitem_ok (JObj d) "person" (JObj pm))) by eauto.
    cbn [bind Py.get fst snd]. reflexivity.
  - exact Hlen.
  - rewrite Hcat. apply getitem_ok. eauto.
  - eapply Forall_impl; [exact Hsize|]. unfold size_ok. cbn. intros p Hp'. lia.
  - apply getitem_ok. eauto.
Qed.

Lemma validated_dataset_renders_witness :
  ∃ out ctx h',
    render_pdf (JObj (sample_dataset sample_comments)) []
    = (Generated (length (ctx_pages ctx)) :: out, Ok (ctx, h'))
    ∧ length out = length (ctx_pages ctx)
    ∧ Py.getitem (JObj (sample_dataset sample_comments)) "comments"
      = Ok (JArr (concat (ctx_pages ctx)))
    ∧ Forall (λ p, (1 ≤ length p ≤ 2)%nat) (ctx_pages ctx)
    ∧ Py.getitem (JObj (sample_dataset sample_comments)) "person"
      = Ok (ctx_person ctx).
Proof.
  apply (validated_dataset_renders all_files). vm_compute. reflexivity.
Defined.
